(** * product_copy_agents: a shallow embedding of the prompt-optimisation loop

    The development follows [src/agents/product_copy_agents.py].  Python
    strings are modelled by [string], each character standing for one code
    point in the range U+0000..U+00FF; Python integers by [Z]; the floats
    that the A/B tester hands out by [pyfloat]; a [dict] by its
    insertion-ordered sequence of entries; exceptions by an explicit
    outcome; the service client, the call log and the random generator by
    a world threaded through every method. *)

From Stdlib Require Import ZArith QArith List String Ascii Bool Lia.
From Stdlib Require Import Numbers.DecimalString.
Import ListNotations.

Local Open Scope string_scope.
Local Open Scope list_scope.
Local Open Scope Z_scope.

(** ** Outcomes of a Python computation *)

(** The reasons for which the modelled code raises [ValueError]. *)
Inductive value_error : Type :=
| SingleCloseBrace      (* Single '}' encountered in format string *)
| SingleOpenBrace       (* Single '{' encountered in format string *)
| UnexpectedOpenBrace   (* unexpected '{' in field name *)
| ExpectedCloseBrace    (* expected '}' before end of string *)
| TooManyDigits         (* Too many decimal digits in format string *)
| MaxEmpty.             (* max() arg is an empty sequence *)

Inductive exn : Type :=
| KeyError (key : string)
| IndexError
| ValueError (why : value_error)
| TypeError
| ServiceError (msg : string).

(** [Beyond] marks a run that leaves the modelled fragment of Python (a
    replacement field with a conversion, a format specification, an
    attribute or an index); nothing is asserted about such a run. *)
Inductive result (A : Type) : Type :=
| Ok (a : A)
| Raise (e : exn)
| Beyond.

Arguments Ok {A} a.
Arguments Raise {A} e.
Arguments Beyond {A}.

Definition result_map {A B : Type} (f : A -> B) (r : result A) : result B :=
  match r with
  | Ok a => Ok (f a)
  | Raise e => Raise e
  | Beyond => Beyond
  end.

Definition result_bind {A B : Type} (r : result A) (k : A -> result B)
  : result B :=
  match r with
  | Ok a => k a
  | Raise e => Raise e
  | Beyond => Beyond
  end.


Definition is_EmptyInputError (e : exn) : bool :=
  match e with
  | ValueError MaxEmpty => true
  | _ => false
  end.

(** ** Strings *)

Definition ord (c : ascii) : N := N_of_ascii c.

(** [str.isspace] on one character. *)
Definition isspace (c : ascii) : bool :=
  let n := ord c in
  ((9 <=? n) && (n <=? 13) || (28 <=? n) && (n <=? 32)
   || (n =? 133) || (n =? 160))%N.

(** The line boundaries of [str.splitlines]. *)
Definition is_linebreak (c : ascii) : bool :=
  let n := ord c in
  ((10 <=? n) && (n <=? 13) || (28 <=? n) && (n <=? 30) || (n =? 133))%N.

Definition CR : ascii := "013"%char.
Definition LF : ascii := "010"%char.

Fixpoint mem_char (c : ascii) (chars : string) : bool :=
  match chars with
  | EmptyString => false
  | String c' chars' => Ascii.eqb c c' || mem_char c chars'
  end.

Fixpoint lstrip (drop : ascii -> bool) (s : string) : string :=
  match s with
  | EmptyString => EmptyString
  | String c s' => if drop c then lstrip drop s' else s
  end.

Fixpoint rstrip (drop : ascii -> bool) (s : string) : string :=
  match s with
  | EmptyString => EmptyString
  | String c s' =>
      match rstrip drop s' with
      | EmptyString => if drop c then EmptyString else String c EmptyString
      | r => String c r
      end
  end.

(** [s.strip()] *)
Definition strip (s : string) : string := rstrip isspace (lstrip isspace s).

(** [s.strip(chars)] *)
Definition strip_chars (chars s : string) : string :=
  rstrip (fun c => mem_char c chars) (lstrip (fun c => mem_char c chars) s).

(** Truth value of a string in a condition. *)
Definition truthy (s : string) : bool :=
  match s with
  | EmptyString => false
  | _ => true
  end.

(** [s.splitlines()]: [cur] is the line read so far. *)
Fixpoint splitlines_from (cur s : string) : list string :=
  match s with
  | EmptyString => if truthy cur then [cur] else []
  | String c rest =>
      if Ascii.eqb c CR then
        match rest with
        | String c' rest' =>
            if Ascii.eqb c' LF then cur :: splitlines_from EmptyString rest'
            else cur :: splitlines_from EmptyString rest
        | EmptyString => cur :: splitlines_from EmptyString rest
        end
      else if is_linebreak c then cur :: splitlines_from EmptyString rest
      else splitlines_from (cur ++ String c EmptyString) rest
  end.

Definition splitlines (s : string) : list string :=
  splitlines_from EmptyString s.

(** [str(n)] for an integer. *)
Definition str_of_int (n : Z) : string := NilZero.string_of_int (Z.to_int n).

(** [l[:n]] *)
Definition slice_to {A : Type} (l : list A) (n : Z) : list A :=
  if n <? 0
  then firstn (Z.to_nat (Z.max 0 (Z.of_nat (List.length l) + n))) l
  else firstn (Z.to_nat n) l.

(** ** [template.format(product=product, n=n)] *)

Definition PY_SSIZE_T_MAX : Z := 9223372036854775807.

Definition is_digit (c : ascii) : bool :=
  let n := ord c in ((48 <=? n) && (n <=? 57))%N.

(** Reading a field name as an integer, digit by digit: [None] when a
    character is not a digit, an error as soon as the value would exceed
    [PY_SSIZE_T_MAX]. *)
Fixpoint get_integer (acc : Z) (s : string) : result (option Z) :=
  match s with
  | EmptyString => Ok (Some acc)
  | String c s' =>
      if is_digit c then
        let digitval := Z.of_N (ord c) - 48 in
        if (PY_SSIZE_T_MAX - digitval) / 10 <? acc
        then Raise (ValueError TooManyDigits)
        else get_integer (acc * 10 + digitval) s'
      else Ok None
  end.

(** Looking a plain field name up: an empty or numeric name indexes the
    positional arguments, of which there are none; any other name is looked
    up among the keyword arguments [product] and [n]. *)
Definition get_field (name product : string) (n : Z) : result string :=
  if negb (truthy name) then Raise IndexError
  else
    result_bind (get_integer 0 name) (fun idx =>
    match idx with
    | Some _ => Raise IndexError
    | None =>
        if String.eqb name "product" then Ok product
        else if String.eqb name "n" then Ok (str_of_int n)
        else Raise (KeyError name)
    end).

Inductive format_mode : Type :=
| Literal
| Field (name : string).

Fixpoint format_from (product : string) (n : Z) (m : format_mode) (s : string)
  : result string :=
  match m, s with
  | Literal, EmptyString => Ok EmptyString
  | Literal, String c rest =>
      if Ascii.eqb c "{" then
        match rest with
        | EmptyString => Raise (ValueError SingleOpenBrace)
        | String c' rest' =>
            if Ascii.eqb c' "{"
            then result_map (String "{") (format_from product n Literal rest')
            else format_from product n (Field EmptyString) rest
        end
      else if Ascii.eqb c "}" then
        match rest with
        | EmptyString => Raise (ValueError SingleCloseBrace)
        | String c' rest' =>
            if Ascii.eqb c' "}"
            then result_map (String "}") (format_from product n Literal rest')
            else Raise (ValueError SingleCloseBrace)
        end
      else result_map (String c) (format_from product n Literal rest)
  | Field name, EmptyString => Raise (ValueError ExpectedCloseBrace)
  | Field name, String c rest =>
      if Ascii.eqb c "}" then
        result_bind (get_field name product n) (fun v =>
        result_map (append v) (format_from product n Literal rest))
      else if Ascii.eqb c "{" then Raise (ValueError UnexpectedOpenBrace)
      else if mem_char c ":![." then Beyond
      else format_from product n (Field (name ++ String c EmptyString)) rest
  end.

Definition format (template product : string) (n : Z) : result string :=
  format_from product n Literal template.

(** ** Floats *)

(** A binary64 value, as far as comparisons see it: a finite float is the
    rational it denotes. *)
Inductive pyfloat : Type :=
| Finite (q : Q)
| PosInf
| NegInf
| NaN.

(** [x > y] *)
Definition fgt (x y : pyfloat) : bool :=
  match x, y with
  | NaN, _ | _, NaN => false
  | Finite a, Finite b => negb (Qle_bool a b)
  | PosInf, PosInf => false
  | PosInf, _ => true
  | _, PosInf => false
  | NegInf, _ => false
  | Finite _, NegInf => true
  end.


Definition is_nan (x : pyfloat) : bool :=
  match x with
  | NaN => true
  | _ => false
  end.

(** [0.0 <= x < 1.0] *)
Definition in_unit_interval (x : pyfloat) : Prop :=
  match x with
  | Finite q => (0 <= q /\ q < 1)%Q
  | _ => False
  end.

(** ** Dictionaries from strings to floats, in insertion order *)

Definition dict : Type := list (string * pyfloat).

Definition dict_keys (d : dict) : list string := map fst d.
Definition dict_values (d : dict) : list pyfloat := map snd d.

(** [d.get(k)], the absent key giving [None]. *)
Fixpoint dict_get (d : dict) (k : string) : option pyfloat :=
  match d with
  | [] => None
  | (k', v) :: d' => if String.eqb k' k then Some v else dict_get d' k
  end.

(** [d[k] = v]: a key already present keeps its place. *)
Fixpoint dict_set (d : dict) (k : string) (v : pyfloat) : dict :=
  match d with
  | [] => [(k, v)]
  | (k', v') :: d' =>
      if String.eqb k' k then (k', v) :: d' else (k', v') :: dict_set d' k v
  end.

(** ** [max(iterable, key=...)] *)

(** [a > b] on two key values; a [None] cannot be ordered. *)
Definition key_gt (a b : option pyfloat) : result bool :=
  match a, b with
  | Some x, Some y => Ok (fgt x y)
  | _, _ => Raise TypeError
  end.

Fixpoint max_loop {A : Type} (key : A -> option pyfloat) (items : list A)
  (maxitem : A) (maxval : option pyfloat) : result A :=
  match items with
  | [] => Ok maxitem
  | item :: items' =>
      let val := key item in
      match key_gt val maxval with
      | Ok true => max_loop key items' item val
      | Ok false => max_loop key items' maxitem maxval
      | Raise e => Raise e
      | Beyond => Beyond
      end
  end.

Definition py_max {A : Type} (key : A -> option pyfloat) (items : list A)
  : result A :=
  match items with
  | [] => Raise (ValueError MaxEmpty)
  | item :: items' => max_loop key items' item (key item)
  end.

(** ** The world: service calls, scoring and the random generator *)

(** What the run does that an observer could see, in order.  A generation
    call records the count [n] it was made for. *)
Inductive event : Type :=
| GenCall (n : Z) (model input : string)
| Scored (copies : list string)
| RefineCall (model input : string).

Record World : Type := mkWorld {
  trace : list event;
  rand_words : nat -> Z;
  rand_pos : nat
}.

(** A state and exception monad: an exception keeps the state reached. *)
Definition M (S A : Type) : Type := S -> result A * S.

Definition ret {S A : Type} (a : A) : M S A := fun s => (Ok a, s).

Definition bind {S A B : Type} (c : M S A) (k : A -> M S B) : M S B :=
  fun s =>
    match c s with
    | (Ok a, s') => k a s'
    | (Raise e, s') => (Raise e, s')
    | (Beyond, s') => (Beyond, s')
    end.

Definition lift_result {S A : Type} (r : result A) : M S A := fun s => (r, s).

Declare Scope monad_scope.
Delimit Scope monad_scope with monad.
Notation "x <- c ;; k" := (bind c (fun x => k))
  (at level 61, c at next level, right associativity) : monad_scope.
Notation "c ;; k" := (bind c (fun _ => k))
  (at level 61, right associativity) : monad_scope.
Local Open Scope monad_scope.

Definition emit (ev : event) : M World unit :=
  fun w => (Ok tt, mkWorld (trace w ++ [ev]) (rand_words w) (rand_pos w)).

(** ** [random.random()] *)

(** The next 32-bit output of the generator. *)
Definition genrand_uint32 : M World Z :=
  fun w => (Ok (rand_words w (rand_pos w) mod 2 ^ 32),
            mkWorld (trace w) (rand_words w) (S (rand_pos w))).

(** 27 and 26 bits of two outputs make a 53-bit numerator over 2^53. *)
Definition random_random : M World pyfloat :=
  a32 <- genrand_uint32 ;;
  b32 <- genrand_uint32 ;;
  let a := Z.shiftr a32 5 in
  let b := Z.shiftr b32 6 in
  ret (Finite (Qmake (a * 67108864 + b) 9007199254740992)).

(** ** The text-generation service *)

Inductive reply : Type :=
| Reply (output_text : string)
| Failure (e : exn).

(** A client answers a request [(model, input)]; its answer may depend on
    everything that happened before. *)
Definition Client : Type := list event -> string -> string -> reply.

(** [client.responses.create(model=model, input=input).output_text] *)
Definition responses_create (c : Client) (ev : event) (model input : string)
  : M World string :=
  fun w =>
    let w' := mkWorld (trace w ++ [ev]) (rand_words w) (rand_pos w) in
    match c (trace w) model input with
    | Reply text => (Ok text, w')
    | Failure e => (Raise e, w')
    end.

Definition default_model : string := "gpt-4.1-mini".

(** ** The agents *)

Module CopyWriterAgent.

Record t : Type := make { client : Client; model : string }.

Definition default_n : Z := 2.

(** The list comprehension over the lines of the response. *)
Fixpoint stripped_lines (lines : list string) : list string :=
  match lines with
  | [] => []
  | line :: lines' =>
      if truthy (strip line)
      then strip_chars "- " line :: stripped_lines lines'
      else stripped_lines lines'
  end.

Definition generate_copies (self : t) (product prompt_template : string)
  (n : Z) : M World (list string) :=
  prompt <- lift_result (format prompt_template product n) ;;
  output_text <-
    responses_create (client self) (GenCall n (model self) prompt)
      (model self) prompt ;;
  let lines := stripped_lines (splitlines output_text) in
  ret (slice_to lines n).

End CopyWriterAgent.

Module ABTesterAgent.

Record t : Type := make { }.

(** The dict comprehension, one draw per copy, in order. *)
Fixpoint run_from (d : dict) (copies : list string) : M World dict :=
  match copies with
  | [] => ret d
  | copy :: copies' =>
      x <- random_random ;;
      run_from (dict_set d copy x) copies'
  end.

Definition run (self : t) (copies : list string) : M World dict :=
  emit (Scored copies) ;;
  run_from [] copies.

End ABTesterAgent.

Module FeedbackAgent.

Record t : Type := make { client : Client; model : string }.

Definition NL : string := String LF EmptyString.

Definition feedback_prompt (best_copy template : string) : string :=
  "The following marketing copy performed best in an A/B test:" ++ NL
  ++ best_copy ++ NL ++ NL
  ++ "Original prompt template:" ++ NL
  ++ template ++ NL ++ NL
  ++ "Suggest an improved prompt template that could yield better copies.".

Definition improve_prompt (self : t) (template : string) (results : dict)
  : M World string :=
  best_copy <- lift_result (py_max (dict_get results) (dict_keys results)) ;;
  let input := feedback_prompt best_copy template in
  output_text <-
    responses_create (client self) (RefineCall (model self) input)
      (model self) input ;;
  ret (strip output_text).

End FeedbackAgent.

Module PromptOptimizer.

Record t : Type := make {
  copy_agent : CopyWriterAgent.t;
  tester : ABTesterAgent.t;
  fb_agent : FeedbackAgent.t;
  template : string
}.

(** The optimizer object lives next to the world; only its [template]
    attribute is ever assigned. *)
Definition Heap : Type := (t * World)%type.

Definition in_world {A : Type} (c : M World A) : M Heap A :=
  fun h =>
    let (r, w') := c (snd h) in (r, (fst h, w')).

Definition self_ : M Heap t := fun h => (Ok (fst h), h).

Definition set_template (new : string) : M Heap unit :=
  fun h =>
    let self := fst h in
    (Ok tt,
     (make (copy_agent self) (tester self) (fb_agent self) new, snd h)).

(** The body of the loop. *)
Definition round (product : string) : M Heap unit :=
  self <- self_ ;;
  copies <-
    in_world (CopyWriterAgent.generate_copies (copy_agent self) product
                (template self) CopyWriterAgent.default_n) ;;
  results <- in_world (ABTesterAgent.run (tester self) copies) ;;
  new <-
    in_world (FeedbackAgent.improve_prompt (fb_agent self) (template self)
                results) ;;
  set_template new.

(** [for _ in range(k): body] *)
Fixpoint for_range (k : nat) (body : M Heap unit) : M Heap unit :=
  match k with
  | O => ret tt
  | S k' => body ;; for_range k' body
  end.

Definition default_rounds : Z := 3.

Definition optimize (product : string) (rounds : Z) : M Heap string :=
  for_range (Z.to_nat rounds) (round product) ;;
  self <- self_ ;;
  ret (template self).

End PromptOptimizer.

(** The template of [main]. *)
Definition main_template : string :=
  "Generate {n} short, catchy marketing copies for {product}."
  ++ "Each copy should be under 20 words.".

(** ** Vocabulary of the properties *)

Definition is_gen_call (ev : event) : bool :=
  match ev with
  | GenCall _ _ _ => true
  | _ => false
  end.

Definition is_refine_call (ev : event) : bool :=
  match ev with
  | RefineCall _ _ => true
  | _ => false
  end.

Definition gen_calls (tr : list event) : nat :=
  List.length (filter is_gen_call tr).

Definition refine_calls (tr : list event) : nat :=
  List.length (filter is_refine_call tr).


(** A string that is empty or whitespace only. *)
Definition blank (s : string) : bool := negb (truthy (strip s)).

(** A dict holds each key once. *)
Definition dict_wf (d : dict) : Prop := NoDup (dict_keys d).



(** What the optimizer may let through: generation calls made for two
    copies, and at most two candidates scored at a time. *)
Definition count_ok (ev : event) : Prop :=
  match ev with
  | GenCall n _ _ => n = 2
  | Scored copies => (List.length copies <= 2)%nat
  | RefineCall _ _ => True
  end.

(** The failure of one round, by the component that raises. *)
Definition round_raises (product : string) (h : PromptOptimizer.Heap)
  (e : exn) (w' : World) : Prop :=
  let self := fst h in
  let gen :=
    CopyWriterAgent.generate_copies (PromptOptimizer.copy_agent self) product
      (PromptOptimizer.template self) CopyWriterAgent.default_n in
  let score := ABTesterAgent.run (PromptOptimizer.tester self) in
  let refine :=
    FeedbackAgent.improve_prompt (PromptOptimizer.fb_agent self)
      (PromptOptimizer.template self) in
  gen (snd h) = (Raise e, w')
  \/ (exists copies w1,
        gen (snd h) = (Ok copies, w1) /\ score copies w1 = (Raise e, w'))
  \/ (exists copies w1 results w2,
        gen (snd h) = (Ok copies, w1)
        /\ score copies w1 = (Ok results, w2)
        /\ refine results w2 = (Raise e, w')).

(** ** Stub services of the scenarios *)

Definition two_copies : string := "- Copy A" ++ String LF "- Copy B".

Definition new_template : string := "New Template {product} {n}".

Definition stub_generation : Client := fun _ _ _ => Reply two_copies.

Definition stub_refinement : Client := fun _ _ _ => Reply new_template.

(** A response with a horizontal rule between the two copies. *)
Definition ruled_copies : string :=
  "- Copy A" ++ String LF "---" ++ String LF "- Copy B".

Definition stub_ruled : Client := fun _ _ _ => Reply ruled_copies.

(** A service that returns nothing. *)
Definition stub_silent : Client := fun _ _ _ => Reply EmptyString.

(** A service that answers its first request only. *)
Definition stub_once : Client :=
  fun history _ _ =>
    match history with
    | [] => Reply two_copies
    | _ => Failure (ServiceError "rate limit exceeded")
    end.

Definition zero_words : nat -> Z := fun _ => 0.

Definition fresh_world : World := mkWorld [] zero_words 0.

Definition optimizer_with (generation refinement : Client) (template : string)
  : PromptOptimizer.t :=
  PromptOptimizer.make
    (CopyWriterAgent.make generation default_model)
    ABTesterAgent.make
    (FeedbackAgent.make refinement default_model)
    template.



(** Scores among which one is not a number. *)
Definition nan_scores : dict := [("a", NaN); ("b", Finite 1)].

(** Two ordinary scores. *)
Definition plain_scores : dict :=
  [("Copy A", Finite (1 # 4)); ("Copy B", Finite (3 # 4))].

(** The request that [main_template] makes for the earbuds. *)
Definition earbuds_prompt : string :=
  "Generate 2 short, catchy marketing copies for wireless earbuds."
  ++ "Each copy should be under 20 words.".

(** The world extended by one event. *)
Definition logged (w : World) (ev : event) : World :=
  mkWorld (trace w ++ [ev]) (rand_words w) (rand_pos w).

(** A run that only appends events satisfying [P] to the trace. *)
Definition appends (P : event -> Prop) (w w' : World) : Prop :=
  exists new, trace w' = trace w ++ new /\ Forall P new.

(** The heaps of the failure scenarios: a silent generation service, and
    one that answers once. *)
Definition silent_heap : PromptOptimizer.Heap :=
  (optimizer_with stub_silent stub_refinement main_template, fresh_world).

Definition silent_world_at_failure : World :=
  mkWorld [GenCall 2 default_model earbuds_prompt; Scored []] zero_words 0.

Definition once_heap : PromptOptimizer.Heap :=
  (optimizer_with stub_once stub_refinement main_template, fresh_world).

Definition once_heap_after_round_1 : PromptOptimizer.Heap :=
  (optimizer_with stub_once stub_refinement new_template,
   mkWorld
     [GenCall 2 default_model earbuds_prompt;
      Scored ["Copy A"; "Copy B"];
      RefineCall default_model
        (FeedbackAgent.feedback_prompt "Copy A" main_template)]
     zero_words 4).

Definition once_world_at_failure : World :=
  logged (snd once_heap_after_round_1)
    (GenCall 2 default_model "New Template wireless earbuds 2").

(** ** Vocabulary of the further properties *)

Definition service_calls (tr : list event) : nat :=
  (gen_calls tr + refine_calls tr)%nat.

(** The strings of a list, each at its first occurrence. *)
Fixpoint first_occurrences (l : list string) : list string :=
  match l with
  | [] => []
  | x :: l' =>
      x :: filter (fun y => negb (String.eqb x y)) (first_occurrences l')
  end.

(** The value of the [i]-th call of [random.random()] made from [w] on. *)
Definition score_at (w : World) (i : nat) : pyfloat :=
  let a32 := rand_words w (rand_pos w + 2 * i)%nat mod 2 ^ 32 in
  let b32 := rand_words w (rand_pos w + 2 * i + 1)%nat mod 2 ^ 32 in
  Finite (Qmake (Z.shiftr a32 5 * 67108864 + Z.shiftr b32 6)
            9007199254740992).

Fixpoint has_linebreak (s : string) : bool :=
  match s with
  | EmptyString => false
  | String c s' => is_linebreak c || has_linebreak s'
  end.

Fixpoint all_space (s : string) : bool :=
  match s with
  | EmptyString => true
  | String c s' => isspace c && all_space s'
  end.

Definition is_brace (c : ascii) : bool := Ascii.eqb c "{" || Ascii.eqb c "}".

Fixpoint has_brace (s : string) : bool :=
  match s with
  | EmptyString => false
  | String c s' => is_brace c || has_brace s'
  end.


(** The events of one completed round of the optimizer [self]. *)
Definition round_events (self : PromptOptimizer.t) (evs : list event) : Prop :=
  exists prompt copies input,
    evs = [GenCall 2 (CopyWriterAgent.model (PromptOptimizer.copy_agent self))
             prompt;
           Scored copies;
           RefineCall (FeedbackAgent.model (PromptOptimizer.fb_agent self))
             input].

(** ** The entry point *)

(** What [print(a, b)] writes. *)
Definition print2 (a b : string) : string :=
  a ++ " " ++ b ++ String LF EmptyString.

(** [main], for the client that [OpenAI()] builds; its value is the text
    written to the standard output. *)
Definition main (client : Client) : M World string :=
  fun w =>
    let copy_agent := CopyWriterAgent.make client default_model in
    let tester := ABTesterAgent.make in
    let fb_agent := FeedbackAgent.make client default_model in
    let optimizer :=
      PromptOptimizer.make copy_agent tester fb_agent main_template in
    match PromptOptimizer.optimize "wireless earbuds" 2 (optimizer, w) with
    | (Ok final_template, (_, w')) =>
        (Ok (print2 ("Final optimized prompt:" ++ String LF EmptyString)
               final_template), w')
    | (Raise e, (_, w')) => (Raise e, w')
    | (Beyond, (_, w')) => (Beyond, w')
    end.

(** [k in l] *)
Definition mem_string (k : string) (l : list string) : bool :=
  existsb (String.eqb k) l.

(** The world after one call of [random.random()]. *)
Definition advance (w : World) : World :=
  mkWorld (trace w) (rand_words w) (S (S (rand_pos w))).

(** Copies of which one comes twice. *)
Definition repeated_copies : list string := ["a"; "b"; "a"].

(** A world whose random words differ from one draw to the next. *)
Definition counting_world : World :=
  mkWorld [] (fun i => Z.of_nat i * 1000000007) 0.

(** Two candidates with the same score. *)
Definition tied_scores : dict :=
  [("Copy A", Finite (1 # 2)); ("Copy B", Finite (1 # 2))].

(** * Properties *)

(** ** The monad *)

Lemma bind_ok {S A B : Type} (c : M S A) (k : A -> M S B) s a s' :
  c s = (Ok a, s') -> bind c k s = k a s'.
Proof. intros H. unfold bind. now rewrite H. Qed.

Lemma bind_raise {S A B : Type} (c : M S A) (k : A -> M S B) s e s' :
  c s = (Raise e, s') -> bind c k s = (Raise e, s').
Proof. intros H. unfold bind. now rewrite H. Qed.

Lemma bind_beyond {S A B : Type} (c : M S A) (k : A -> M S B) s s' :
  c s = (Beyond, s') -> bind c k s = (Beyond, s').
Proof. intros H. unfold bind. now rewrite H. Qed.

(** ** No rounds *)

(** C1: with [rounds = 0], [optimize] returns the current template and
    leaves the optimizer and the world as they were, so the trace gains no
    generation call and no refinement call. *)
Theorem optimize_zero_rounds :
  forall (product : string) (self : PromptOptimizer.t) (w : World),
    PromptOptimizer.optimize product 0 (self, w)
    = (Ok (PromptOptimizer.template self), (self, w)).
Proof. intros product self w. reflexivity. Qed.

(** ** The refiner on an empty mapping *)

(** C7: on an empty mapping [improve_prompt] raises the error of [max] on
    an empty sequence, the spec's EmptyInputError, and the world is left
    untouched: no request reaches the service. *)
Theorem improve_prompt_empty :
  forall (self : FeedbackAgent.t) (template : string) (w : World),
    FeedbackAgent.improve_prompt self template [] w
    = (Raise (ValueError MaxEmpty), w)
    /\ is_EmptyInputError (ValueError MaxEmpty) = true.
Proof. intros self template w. split; reflexivity. Qed.

(** ** Formatting the template *)









(** ** Parsing the response into copies *)

Lemma slice_to_length {A : Type} (l : list A) (n : Z) :
  0 <= n -> (List.length (slice_to l n) <= Z.to_nat n)%nat.
Proof.
  intros Hn. unfold slice_to.
  destruct (n <? 0) eqn:Hneg; [apply Z.ltb_lt in Hneg; lia|].
  rewrite length_firstn. lia.
Qed.

Lemma slice_to_prefix {A : Type} (l : list A) (n : Z) :
  exists rest, l = slice_to l n ++ rest.
Proof.
  unfold slice_to. destruct (n <? 0); eexists; symmetry; apply firstn_skipn.
Qed.

Lemma lstrip_head drop s c r :
  lstrip drop s = String c r -> drop c = false.
Proof.
  induction s as [|c0 s IH]; simpl; [discriminate|].
  destruct (drop c0) eqn:Hc0; [exact IH|].
  intros [= <- _]. exact Hc0.
Qed.

Lemma rstrip_head drop s c r :
  rstrip drop s = String c r -> exists r', s = String c r'.
Proof.
  destruct s as [|c0 s]; simpl; [discriminate|].
  destruct (rstrip drop s).
  - destruct (drop c0); [discriminate|]. intros [= <- _]. now exists s.
  - intros [= <- _]. now exists s.
Qed.

Lemma strip_chars_head chars s c r :
  strip_chars chars s = String c r -> mem_char c chars = false.
Proof.
  unfold strip_chars. intros H.
  destruct (rstrip_head _ _ _ _ H) as [r' Hl].
  exact (lstrip_head _ _ _ _ Hl).
Qed.

(** No copy starts with a dash or a space, let alone with the marker. *)
Lemma stripped_lines_no_marker lines item :
  In item (CopyWriterAgent.stripped_lines lines) ->
  prefix "- " item = false.
Proof.
  induction lines as [|line lines IH]; simpl; [tauto|].
  destruct (truthy (strip line)); [|exact IH].
  intros [<-|Hin]; [|exact (IH Hin)].
  destruct (strip_chars "- " line) as [|c r] eqn:Hs; [reflexivity|].
  apply strip_chars_head in Hs.
  change (prefix "- " (String c r))
    with (if ascii_dec "-" c then prefix " " r else false).
  destruct (ascii_dec "-" c) as [<-|Hne]; [discriminate Hs|reflexivity].
Qed.

(** C5: the line [---] of the response is not whitespace, so the filter
    keeps it, and stripping dashes and spaces then leaves the empty string:
    [generate_copies] returns a blank item. *)
Theorem generate_copies_blank_item :
  fst (CopyWriterAgent.generate_copies
         (CopyWriterAgent.make stub_ruled default_model)
         "wireless earbuds" main_template 2 fresh_world)
  = Ok ["Copy A"; ""]
  /\ existsb blank ["Copy A"; ""] = true.
Proof. split; reflexivity. Qed.

(** ** The random scores *)

Lemma random_random_spec (w : World) :
  exists q,
    random_random w
    = (Ok (Finite q), mkWorld (trace w) (rand_words w) (S (S (rand_pos w))))
    /\ (0 <= q /\ q < 1)%Q.
Proof.
  unfold random_random, bind, genrand_uint32, ret. cbn [trace rand_words rand_pos].
  eexists. split; [reflexivity|].
  set (x := rand_words w (rand_pos w) mod 2 ^ 32).
  set (y := rand_words w (S (rand_pos w)) mod 2 ^ 32).
  assert (Hx : 0 <= x < 2 ^ 32) by (apply Z.mod_pos_bound; lia).
  assert (Hy : 0 <= y < 2 ^ 32) by (apply Z.mod_pos_bound; lia).
  rewrite !Z.shiftr_div_pow2 by lia.
  assert (Ha : 0 <= x / 2 ^ 5 < 134217728).
  { split; [apply Z.div_pos; lia|apply Z.div_lt_upper_bound; lia]. }
  assert (Hb : 0 <= y / 2 ^ 6 < 67108864).
  { split; [apply Z.div_pos; lia|apply Z.div_lt_upper_bound; lia]. }
  unfold Qle, Qlt. cbn [Qnum Qden]. lia.
Qed.

(** ** Storing into a dict *)

Lemma dict_set_keys d k v k' :
  In k' (dict_keys (dict_set d k v)) <-> k' = k \/ In k' (dict_keys d).
Proof.
  induction d as [|[k0 v0] d IH]; simpl.
  - intuition congruence.
  - destruct (String.eqb_spec k0 k) as [->|Hne]; simpl.
    + intuition congruence.
    + unfold dict_keys in IH. rewrite IH. tauto.
Qed.

Lemma dict_set_wf d k v : dict_wf d -> dict_wf (dict_set d k v).
Proof.
  unfold dict_wf.
  induction d as [|[k0 v0] d IH]; simpl; intros Hwf.
  - constructor; [simpl; tauto|constructor].
  - inversion Hwf as [|? ? Hnotin Hwf']; subst.
    destruct (String.eqb_spec k0 k) as [->|Hne]; simpl.
    + constructor; assumption.
    + constructor; [|exact (IH Hwf')].
      intros Hin. apply dict_set_keys in Hin.
      destruct Hin as [->|Hin]; [now apply Hne|now apply Hnotin].
Qed.

Lemma dict_set_values (P : pyfloat -> Prop) d k v :
  Forall P (dict_values d) -> P v -> Forall P (dict_values (dict_set d k v)).
Proof.
  intros Hd Hv.
  induction d as [|[k0 v0] d IH]; simpl.
  - constructor; [exact Hv|constructor].
  - inversion Hd as [|? ? Hv0 Hd']; subst.
    destruct (k0 =? k)%string; simpl; constructor; auto.
Qed.

(** ** The A/B tester *)

Lemma run_from_spec :
  forall (copies : list string) (d : dict) (w : World),
    dict_wf d -> Forall in_unit_interval (dict_values d) ->
    exists d' n,
      ABTesterAgent.run_from d copies w
      = (Ok d', mkWorld (trace w) (rand_words w) n)
      /\ (forall k, In k (dict_keys d') <-> In k (dict_keys d) \/ In k copies)
      /\ dict_wf d'
      /\ Forall in_unit_interval (dict_values d').
Proof.
  induction copies as [|copy copies IH]; intros d w Hwf Hval.
  - exists d, (rand_pos w). destruct w; simpl. intuition.
  - destruct (random_random_spec w) as [q [Hq Hrange]].
    destruct (IH (dict_set d copy (Finite q))
                (mkWorld (trace w) (rand_words w) (S (S (rand_pos w)))))
      as [d' [n [Hrun [Hkeys [Hwf' Hval']]]]].
    + now apply dict_set_wf.
    + now apply dict_set_values.
    + exists d', n. cbn [ABTesterAgent.run_from].
      rewrite (bind_ok _ _ _ _ _ Hq), Hrun. cbn [trace rand_words].
      repeat split; try assumption.
      * intros Hin. apply Hkeys in Hin. rewrite dict_set_keys in Hin.
        simpl. intuition.
      * intros Hin. apply Hkeys. rewrite dict_set_keys.
        simpl in Hin. intuition.
Qed.

Lemma run_spec (self : ABTesterAgent.t) (copies : list string) (w : World) :
  exists d n,
    ABTesterAgent.run self copies w
    = (Ok d, mkWorld (trace w ++ [Scored copies]) (rand_words w) n)
    /\ (forall k, In k (dict_keys d) <-> In k copies)
    /\ dict_wf d
    /\ Forall in_unit_interval (dict_values d).
Proof.
  destruct (run_from_spec copies []
              (mkWorld (trace w ++ [Scored copies]) (rand_words w)
                 (rand_pos w)))
    as [d [n [Hrun [Hkeys [Hwf Hval]]]]].
  - constructor.
  - constructor.
  - exists d, n. unfold ABTesterAgent.run, bind, emit.
    rewrite Hrun. cbn [trace rand_words].
    repeat split; try assumption.
    + intros Hin. apply Hkeys in Hin. simpl in Hin. tauto.
    + intros Hin. apply Hkeys. now right.
Qed.

(** C4: for every sequence of candidates, the empty one and those with
    repeated strings included, [run] returns a mapping whose keys are
    exactly the strings of the input, each key once, and whose values all
    lie in the interval from 0 inclusive to 1 exclusive. *)
Theorem run_keys_and_scores :
  forall (self : ABTesterAgent.t) (copies : list string) (w : World),
    exists d w',
      ABTesterAgent.run self copies w = (Ok d, w')
      /\ (forall k, In k (dict_keys d) <-> In k copies)
      /\ NoDup (dict_keys d)
      /\ Forall in_unit_interval (dict_values d).
Proof.
  intros self copies w.
  destruct (run_spec self copies w) as [d [n [Hrun [Hkeys [Hwf Hval]]]]].
  exists d. eexists. repeat split; try eassumption; apply Hkeys.
Qed.

(** ** The order of floats that are numbers *)

Lemma fgt_false_iff (a b : Q) :
  fgt (Finite a) (Finite b) = false <-> (a <= b)%Q.
Proof.
  unfold fgt. rewrite negb_false_iff. apply Qle_bool_iff.
Qed.





(** ** The maximum *)

Lemma dict_get_in (d : dict) :
  dict_wf d -> forall k v, In (k, v) d -> dict_get d k = Some v.
Proof.
  unfold dict_wf.
  induction d as [|[k0 v0] d IH]; simpl; intros Hwf k v Hin; [tauto|].
  inversion Hwf as [|? ? Hnotin Hwf']; subst.
  destruct Hin as [[= -> ->]|Hin].
  - now rewrite String.eqb_refl.
  - destruct (String.eqb_spec k0 k) as [->|Hne].
    + exfalso. apply Hnotin. unfold dict_keys.
      change k with (fst (k, v)). now apply in_map.
    + now apply IH.
Qed.

Lemma dict_get_keys (d : dict) :
  dict_wf d ->
  map (dict_get d) (dict_keys d) = map (fun v => Some v) (dict_values d).
Proof.
  intros Hwf. unfold dict_keys, dict_values. rewrite !map_map.
  apply map_ext_in. intros [k v] Hin. simpl. now apply dict_get_in.
Qed.

(** The loop over the keys and the loop over the values take the same
    decisions. *)
Lemma max_loop_sim {A : Type} (key : A -> option pyfloat) :
  forall (items : list A) (vals : list pyfloat) (mi : A) (m0 : pyfloat),
    map key items = map (fun v => Some v) vals ->
    key mi = Some m0 ->
    exists best m,
      max_loop key items mi (Some m0) = Ok best
      /\ max_loop (fun v => Some v) vals m0 (Some m0) = Ok m
      /\ key best = Some m.
Proof.
  induction items as [|item items IH]; intros vals mi m0 Hmap Hmi.
  - destruct vals; [|discriminate]. exists mi, m0. simpl. auto.
  - destruct vals as [|v vals]; [discriminate|].
    simpl in Hmap. injection Hmap as Hitem Hmap.
    cbn [max_loop]. rewrite Hitem. cbn [key_gt].
    destruct (fgt v m0); apply IH; assumption.
Qed.


Lemma improve_prompt_trace (self : FeedbackAgent.t) (template : string)
  (d : dict) (w : World) (best : string) :
  py_max (dict_get d) (dict_keys d) = Ok best ->
  trace (snd (FeedbackAgent.improve_prompt self template d w))
  = trace w
    ++ [RefineCall (FeedbackAgent.model self)
          (FeedbackAgent.feedback_prompt best template)].
Proof.
  intros Hbest.
  unfold FeedbackAgent.improve_prompt, bind, lift_result, responses_create.
  rewrite Hbest.
  destruct (FeedbackAgent.client self (trace w) (FeedbackAgent.model self)
              (FeedbackAgent.feedback_prompt best template));
    reflexivity.
Qed.




(** ** What each agent adds to the trace *)

Lemma generate_copies_spec (self : CopyWriterAgent.t)
  (product template : string) (n : Z) (w : World) :
  (exists r,
     CopyWriterAgent.generate_copies self product template n w = (r, w)
     /\ forall copies, r <> Ok copies)
  \/ (exists prompt,
        format template product n = Ok prompt
        /\ let ev := GenCall n (CopyWriterAgent.model self) prompt in
           match CopyWriterAgent.client self (trace w)
                   (CopyWriterAgent.model self) prompt with
           | Reply text =>
               CopyWriterAgent.generate_copies self product template n w
               = (Ok (slice_to
                        (CopyWriterAgent.stripped_lines (splitlines text)) n),
                  logged w ev)
           | Failure e =>
               CopyWriterAgent.generate_copies self product template n w
               = (Raise e, logged w ev)
           end).
Proof.
  unfold CopyWriterAgent.generate_copies, bind, lift_result.
  destruct (format template product n) as [prompt|e|] eqn:Hfmt.
  - right. exists prompt. split; [reflexivity|].
    unfold responses_create, logged, ret. cbv zeta.
    destruct (CopyWriterAgent.client self (trace w)
                (CopyWriterAgent.model self) prompt); reflexivity.
  - left. exists (Raise e). split; [reflexivity|discriminate].
  - left. exists Beyond. split; [reflexivity|discriminate].
Qed.

Lemma improve_prompt_spec (self : FeedbackAgent.t) (template : string)
  (d : dict) (w : World) :
  (exists r,
     FeedbackAgent.improve_prompt self template d w = (r, w)
     /\ forall new, r <> Ok new)
  \/ (exists best,
        py_max (dict_get d) (dict_keys d) = Ok best
        /\ let input := FeedbackAgent.feedback_prompt best template in
           let ev := RefineCall (FeedbackAgent.model self) input in
           match FeedbackAgent.client self (trace w)
                   (FeedbackAgent.model self) input with
           | Reply text =>
               FeedbackAgent.improve_prompt self template d w
               = (Ok (strip text), logged w ev)
           | Failure e =>
               FeedbackAgent.improve_prompt self template d w
               = (Raise e, logged w ev)
           end).
Proof.
  unfold FeedbackAgent.improve_prompt, bind, lift_result.
  destruct (py_max (dict_get d) (dict_keys d)) as [best|e|] eqn:Hmax.
  - right. exists best. split; [reflexivity|].
    unfold responses_create, logged, ret. cbv zeta.
    destruct (FeedbackAgent.client self (trace w) (FeedbackAgent.model self)
                (FeedbackAgent.feedback_prompt best template)); reflexivity.
  - left. exists (Raise e). split; [reflexivity|discriminate].
  - left. exists Beyond. split; [reflexivity|discriminate].
Qed.

(** ** One round *)

(** The body of the loop, with the state written out. *)
Lemma round_unfold (product : string) (self : PromptOptimizer.t) (w : World) :
  PromptOptimizer.round product (self, w)
  = match CopyWriterAgent.generate_copies (PromptOptimizer.copy_agent self)
            product (PromptOptimizer.template self)
            CopyWriterAgent.default_n w with
    | (Ok copies, w1) =>
        match ABTesterAgent.run (PromptOptimizer.tester self) copies w1 with
        | (Ok results, w2) =>
            match FeedbackAgent.improve_prompt (PromptOptimizer.fb_agent self)
                    (PromptOptimizer.template self) results w2 with
            | (Ok new, w3) =>
                (Ok tt,
                 (PromptOptimizer.make (PromptOptimizer.copy_agent self)
                    (PromptOptimizer.tester self)
                    (PromptOptimizer.fb_agent self) new, w3))
            | (Raise e, w3) => (Raise e, (self, w3))
            | (Beyond, w3) => (Beyond, (self, w3))
            end
        | (Raise e, w2) => (Raise e, (self, w2))
        | (Beyond, w2) => (Beyond, (self, w2))
        end
    | (Raise e, w1) => (Raise e, (self, w1))
    | (Beyond, w1) => (Beyond, (self, w1))
    end.
Proof.
  unfold PromptOptimizer.round, bind, PromptOptimizer.self_,
    PromptOptimizer.in_world, PromptOptimizer.set_template.
  cbn [fst snd].
  destruct (CopyWriterAgent.generate_copies _ _ _ _ w) as [[copies|e|] w1];
    try reflexivity.
  cbn [fst snd].
  destruct (ABTesterAgent.run _ copies w1) as [[results|e|] w2];
    try reflexivity.
  cbn [fst snd].
  destruct (FeedbackAgent.improve_prompt _ _ results w2) as [[new|e|] w3];
    reflexivity.
Qed.

Lemma round_raises_round (product : string) (h : PromptOptimizer.Heap)
  (e : exn) (w' : World) :
  round_raises product h e w' ->
  PromptOptimizer.round product h = (Raise e, (fst h, w')).
Proof.
  destruct h as [self w]. unfold round_raises. cbn [fst snd].
  rewrite round_unfold.
  intros [Hgen|[(copies & w1 & Hgen & Hrun)
               |(copies & w1 & results & w2 & Hgen & Hrun & Href)]];
    rewrite Hgen; try rewrite Hrun; try rewrite Href; reflexivity.
Qed.

(** An exception of the round leaves the optimizer as it was. *)
Lemma round_raise_keeps_self (product : string) (h h' : PromptOptimizer.Heap)
  (e : exn) :
  PromptOptimizer.round product h = (Raise e, h') -> fst h' = fst h.
Proof.
  destruct h as [self w]. rewrite round_unfold.
  destruct (CopyWriterAgent.generate_copies _ _ _ _ w) as [[copies|e1|] w1];
    [|intros [= _ <-]; reflexivity|discriminate].
  destruct (ABTesterAgent.run _ copies w1) as [[results|e2|] w2];
    [|intros [= _ <-]; reflexivity|discriminate].
  destruct (FeedbackAgent.improve_prompt _ _ results w2) as [[new|e3|] w3];
    [discriminate|intros [= _ <-]; reflexivity|discriminate].
Qed.

(** ** Traces that only grow *)

Lemma appends_refl (P : event -> Prop) (w : World) : appends P w w.
Proof. exists []. split; [now rewrite app_nil_r|constructor]. Qed.

Lemma appends_trans (P : event -> Prop) (w1 w2 w3 : World) :
  appends P w1 w2 -> appends P w2 w3 -> appends P w1 w3.
Proof.
  intros [n1 [H1 F1]] [n2 [H2 F2]]. exists (n1 ++ n2). split.
  - now rewrite H2, H1, app_assoc.
  - apply Forall_app. now split.
Qed.

Lemma appends_logged (P : event -> Prop) (w : World) (ev : event) :
  P ev -> appends P w (logged w ev).
Proof.
  intros H. exists [ev]. split; [reflexivity|]. constructor; [exact H|constructor].
Qed.

Lemma generate_copies_appends (self : CopyWriterAgent.t)
  (product template : string) (w : World) :
  let r := CopyWriterAgent.generate_copies self product template
             CopyWriterAgent.default_n w in
  appends count_ok w (snd r)
  /\ forall copies, fst r = Ok copies -> (List.length copies <= 2)%nat.
Proof.
  cbv zeta.
  destruct (generate_copies_spec self product template
              CopyWriterAgent.default_n w)
    as [(r & -> & Hr)|(prompt & Hfmt & Hcall)].
  - split; [apply appends_refl|]. intros copies H. now apply Hr in H.
  - cbv zeta in Hcall.
    destruct (CopyWriterAgent.client self (trace w)
                (CopyWriterAgent.model self) prompt) as [text|e];
      rewrite Hcall; cbn [fst snd];
      (split; [apply appends_logged; reflexivity|]).
    + intros copies [= <-].
      apply (slice_to_length _ CopyWriterAgent.default_n).
      unfold CopyWriterAgent.default_n. lia.
    + discriminate.
Qed.

Lemma improve_prompt_appends (self : FeedbackAgent.t) (template : string)
  (d : dict) (w : World) :
  appends count_ok w (snd (FeedbackAgent.improve_prompt self template d w)).
Proof.
  destruct (improve_prompt_spec self template d w)
    as [(r & -> & _)|(best & _ & Hcall)].
  - apply appends_refl.
  - cbv zeta in Hcall.
    destruct (FeedbackAgent.client self (trace w) (FeedbackAgent.model self)
                (FeedbackAgent.feedback_prompt best template));
      rewrite Hcall; apply appends_logged; exact I.
Qed.

Lemma round_appends (product : string) (h : PromptOptimizer.Heap) :
  appends count_ok (snd h) (snd (snd (PromptOptimizer.round product h))).
Proof.
  destruct h as [self w]. rewrite round_unfold. cbn [snd].
  destruct (generate_copies_appends (PromptOptimizer.copy_agent self) product
              (PromptOptimizer.template self) w) as [Hgen Hlen].
  destruct (CopyWriterAgent.generate_copies _ _ _ _ w) as [[copies|e|] w1];
    cbn [fst snd] in *; try exact Hgen.
  specialize (Hlen copies eq_refl).
  destruct (run_spec (PromptOptimizer.tester self) copies w1)
    as (d & n & -> & _).
  set (w2 := mkWorld (trace w1 ++ [Scored copies]) (rand_words w1) n).
  assert (Hrun : appends count_ok w1 w2).
  { exists [Scored copies]. split; [reflexivity|].
    constructor; [exact Hlen|constructor]. }
  pose proof (improve_prompt_appends (PromptOptimizer.fb_agent self)
                (PromptOptimizer.template self) d w2) as Href.
  destruct (FeedbackAgent.improve_prompt _ _ d w2) as [[new|e|] w3];
    cbn [fst snd] in *;
    exact (appends_trans _ _ _ _ Hgen (appends_trans _ _ _ _ Hrun Href)).
Qed.

Lemma for_range_appends (product : string) (k : nat) :
  forall h : PromptOptimizer.Heap,
    appends count_ok (snd h)
      (snd (snd (PromptOptimizer.for_range k (PromptOptimizer.round product)
                   h))).
Proof.
  induction k as [|k IH]; intros h.
  - apply appends_refl.
  - cbn [PromptOptimizer.for_range]. unfold bind.
    pose proof (round_appends product h) as Hround.
    destruct (PromptOptimizer.round product h) as [[[]|e|] h1];
      cbn [snd] in *; try exact Hround.
    exact (appends_trans _ _ _ _ Hround (IH h1)).
Qed.

(** C9: whatever the number of rounds and however the run ends, every
    generation call that [optimize] adds to the trace was made for the
    default count of 2, and every list of candidates it has scored holds at
    most 2 of them. *)
Theorem optimize_fixed_count :
  forall (product : string) (rounds : Z) (h : PromptOptimizer.Heap),
    exists new,
      trace (snd (snd (PromptOptimizer.optimize product rounds h)))
      = trace (snd h) ++ new
      /\ Forall count_ok new.
Proof.
  intros product rounds h.
  pose proof (for_range_appends product (Z.to_nat rounds) h) as Hloop.
  unfold PromptOptimizer.optimize, bind.
  destruct (PromptOptimizer.for_range _ _ h) as [[[]|e|] h1];
    cbn [snd] in *; exact Hloop.
Qed.

(** ** The loop *)

Lemma for_range_fail (body : M PromptOptimizer.Heap unit) :
  forall (j k : nat) (h hj h' : PromptOptimizer.Heap) (e : exn),
    (j < k)%nat ->
    PromptOptimizer.for_range j body h = (Ok tt, hj) ->
    body hj = (Raise e, h') ->
    PromptOptimizer.for_range k body h = (Raise e, h').
Proof.
  induction j as [|j IH]; intros k h hj h' e Hlt Hrun Hfail;
    (destruct k as [|k]; [lia|]); cbn [PromptOptimizer.for_range] in *.
  - injection Hrun as <-. exact (bind_raise _ _ _ _ _ Hfail).
  - unfold bind in Hrun |- *.
    destruct (body h) as [[[]|e1|] h1]; try discriminate.
    apply (IH k h1 hj h' e); [lia|exact Hrun|exact Hfail].
Qed.

Lemma optimize_completed (product : string) (j : nat)
  (h hj : PromptOptimizer.Heap) :
  PromptOptimizer.for_range j (PromptOptimizer.round product) h = (Ok tt, hj) ->
  PromptOptimizer.optimize product (Z.of_nat j) h
  = (Ok (PromptOptimizer.template (fst hj)), hj).
Proof.
  intros Hrun. unfold PromptOptimizer.optimize.
  rewrite Nat2Z.id. now rewrite (bind_ok _ _ _ _ _ Hrun).
Qed.

Lemma optimize_fail (product : string) (rounds : Z) (j : nat)
  (h hj h' : PromptOptimizer.Heap) (e : exn) :
  Z.of_nat j < rounds ->
  PromptOptimizer.for_range j (PromptOptimizer.round product) h = (Ok tt, hj) ->
  PromptOptimizer.round product hj = (Raise e, h') ->
  PromptOptimizer.optimize product rounds h = (Raise e, h').
Proof.
  intros Hlt Hrun Hfail. unfold PromptOptimizer.optimize.
  apply bind_raise.
  apply (for_range_fail _ j (Z.to_nat rounds) h hj h' e); [lia|exact Hrun|exact Hfail].
Qed.

(** C8: when the rounds before round [j + 1] have completed and that round,
    one of at least [j + 1] requested, sees the generator, the tester or
    the refiner raise [e], then [optimize] raises the same [e] and returns
    no template; the world it leaves is the one in which the exception was
    raised, so nothing was called again: the remaining rounds are skipped
    and the failed step is not retried. *)
Theorem optimize_aborts :
  forall (product : string) (rounds : Z) (j : nat)
         (h hj : PromptOptimizer.Heap) (e : exn) (w' : World),
    Z.of_nat j < rounds ->
    PromptOptimizer.for_range j (PromptOptimizer.round product) h
    = (Ok tt, hj) ->
    round_raises product hj e w' ->
    PromptOptimizer.optimize product rounds h = (Raise e, (fst hj, w')).
Proof.
  intros product rounds j h hj e w' Hlt Hrun Hfail.
  apply (optimize_fail product rounds j h hj); [exact Hlt|exact Hrun|].
  now apply round_raises_round.
Qed.

Lemma optimize_aborts_witness :
  (0 < 2
   /\ PromptOptimizer.for_range 0 (PromptOptimizer.round "wireless earbuds")
        silent_heap = (Ok tt, silent_heap)
   /\ round_raises "wireless earbuds" silent_heap (ValueError MaxEmpty)
        silent_world_at_failure)
  /\ PromptOptimizer.optimize "wireless earbuds" 2 silent_heap
     = (Raise (ValueError MaxEmpty),
        (fst silent_heap, silent_world_at_failure)).
Proof.
  assert (Hfail : round_raises "wireless earbuds" silent_heap
                    (ValueError MaxEmpty) silent_world_at_failure).
  { right. right.
    exists [], (mkWorld [GenCall 2 default_model earbuds_prompt] zero_words 0),
      [], silent_world_at_failure.
    repeat split; reflexivity. }
  split; [split; [lia|split; [reflexivity|exact Hfail]]|].
  apply (optimize_aborts "wireless earbuds" 2 0 silent_heap silent_heap
           (ValueError MaxEmpty) silent_world_at_failure);
    [simpl; lia|reflexivity|exact Hfail].
Defined.

(** C10: when round [j + 1] raises, the call ends with the exception while
    the optimizer holds the template that round [j] stored, which is the
    template the first [j] rounds return, and the original one when
    [j = 0]; a later call on the same optimizer, here one of no rounds,
    returns that template. *)
Theorem optimize_keeps_partial_template :
  forall (product : string) (rounds : Z) (j : nat)
         (h hj h' : PromptOptimizer.Heap) (e : exn),
    Z.of_nat j < rounds ->
    PromptOptimizer.for_range j (PromptOptimizer.round product) h
    = (Ok tt, hj) ->
    PromptOptimizer.round product hj = (Raise e, h') ->
    PromptOptimizer.optimize product rounds h = (Raise e, h')
    /\ PromptOptimizer.template (fst h') = PromptOptimizer.template (fst hj)
    /\ PromptOptimizer.optimize product (Z.of_nat j) h
       = (Ok (PromptOptimizer.template (fst hj)), hj)
    /\ (j = 0%nat -> fst h' = fst h)
    /\ forall product',
         PromptOptimizer.optimize product' 0 h'
         = (Ok (PromptOptimizer.template (fst hj)), h').
Proof.
  intros product rounds j h hj h' e Hlt Hrun Hfail.
  pose proof (round_raise_keeps_self _ _ _ _ Hfail) as Hself.
  repeat split.
  - exact (optimize_fail product rounds j h hj h' e Hlt Hrun Hfail).
  - now rewrite Hself.
  - now apply optimize_completed.
  - intros ->. cbn [PromptOptimizer.for_range] in Hrun.
    injection Hrun as <-. exact Hself.
  - intros product'. rewrite <- Hself. destruct h'. reflexivity.
Qed.

Lemma optimize_keeps_partial_template_witness :
  (1 < 2
   /\ PromptOptimizer.for_range 1 (PromptOptimizer.round "wireless earbuds")
        once_heap = (Ok tt, once_heap_after_round_1)
   /\ PromptOptimizer.round "wireless earbuds" once_heap_after_round_1
      = (Raise (ServiceError "rate limit exceeded"),
         (fst once_heap_after_round_1, once_world_at_failure)))
  /\ PromptOptimizer.template (fst once_heap_after_round_1)
     <> PromptOptimizer.template (fst once_heap)
  /\ let h' := (fst once_heap_after_round_1, once_world_at_failure) in
     PromptOptimizer.optimize "wireless earbuds" 2 once_heap
     = (Raise (ServiceError "rate limit exceeded"), h')
     /\ PromptOptimizer.template (fst h') = new_template
     /\ PromptOptimizer.optimize "wireless earbuds" 1 once_heap
        = (Ok new_template, once_heap_after_round_1)
     /\ (1%nat = 0%nat -> fst h' = fst once_heap)
     /\ forall product',
          PromptOptimizer.optimize product' 0 h' = (Ok new_template, h').
Proof.
  split; [split; [lia|split; reflexivity]|split; [discriminate|]].
  exact (optimize_keeps_partial_template "wireless earbuds" 2 1
           once_heap once_heap_after_round_1
           (fst once_heap_after_round_1, once_world_at_failure)
           (ServiceError "rate limit exceeded")
           ltac:(simpl; lia) eq_refl eq_refl).
Defined.

(** ** The scenario with the two stub services *)

Lemma generate_copies_reply (self : CopyWriterAgent.t)
  (product template prompt text : string) (n : Z) (w : World) :
  format template product n = Ok prompt ->
  CopyWriterAgent.client self (trace w) (CopyWriterAgent.model self) prompt
  = Reply text ->
  CopyWriterAgent.generate_copies self product template n w
  = (Ok (slice_to (CopyWriterAgent.stripped_lines (splitlines text)) n),
     logged w (GenCall n (CopyWriterAgent.model self) prompt)).
Proof.
  intros Hfmt Hreply.
  unfold CopyWriterAgent.generate_copies, bind, lift_result, responses_create.
  now rewrite Hfmt, Hreply.
Qed.

Lemma improve_prompt_reply (self : FeedbackAgent.t)
  (template best text : string) (d : dict) (w : World) :
  py_max (dict_get d) (dict_keys d) = Ok best ->
  FeedbackAgent.client self (trace w) (FeedbackAgent.model self)
    (FeedbackAgent.feedback_prompt best template)
  = Reply text ->
  FeedbackAgent.improve_prompt self template d w
  = (Ok (strip text),
     logged w (RefineCall (FeedbackAgent.model self)
                 (FeedbackAgent.feedback_prompt best template))).
Proof.
  intros Hbest Hreply.
  unfold FeedbackAgent.improve_prompt, bind, lift_result, responses_create.
  now rewrite Hbest, Hreply.
Qed.

(** On a dict that is not empty [max] finds a key. *)
Lemma py_max_dict (d : dict) :
  dict_wf d -> d <> [] ->
  exists best, py_max (dict_get d) (dict_keys d) = Ok best.
Proof.
  intros Hwf Hne. destruct d as [|[k0 v0] d']; [congruence|].
  pose proof (dict_get_keys _ Hwf) as Hmap.
  pose proof (dict_get_in _ Hwf k0 v0 (or_introl eq_refl)) as Hk0.
  set (d := (k0, v0) :: d') in *.
  cbn [dict_keys dict_values map fst snd d] in Hmap.
  injection Hmap as _ Hmap.
  destruct (max_loop_sim (dict_get d) (map fst d') (map snd d') k0 v0
              Hmap Hk0) as [best [m [Hbest _]]].
  exists best. unfold py_max, d. cbn [dict_keys map fst].
  fold d. rewrite Hk0. exact Hbest.
Qed.

Lemma stub_round (template prompt : string) (w : World) :
  format template "wireless earbuds" 2 = Ok prompt ->
  exists input n,
    PromptOptimizer.round "wireless earbuds"
      (optimizer_with stub_generation stub_refinement template, w)
    = (Ok tt,
       (optimizer_with stub_generation stub_refinement new_template,
        mkWorld
          (trace w
           ++ [GenCall 2 default_model prompt;
               Scored ["Copy A"; "Copy B"];
               RefineCall default_model input])
          (rand_words w) n)).
Proof.
  intros Hfmt. rewrite round_unfold.
  cbn [optimizer_with PromptOptimizer.copy_agent PromptOptimizer.tester
         PromptOptimizer.fb_agent PromptOptimizer.template].
  rewrite (generate_copies_reply
             (CopyWriterAgent.make stub_generation default_model)
             "wireless earbuds" template prompt two_copies
             CopyWriterAgent.default_n w Hfmt eq_refl).
  change (slice_to (CopyWriterAgent.stripped_lines (splitlines two_copies))
            CopyWriterAgent.default_n)
    with ["Copy A"; "Copy B"].
  set (w1 := logged w _).
  destruct (run_spec ABTesterAgent.make ["Copy A"; "Copy B"] w1)
    as (d & n & -> & Hkeys & Hwf & _).
  assert (Hne : d <> []).
  { intros ->. apply (proj2 (Hkeys "Copy A")). simpl. auto. }
  destruct (py_max_dict d Hwf Hne) as [best Hbest].
  rewrite (improve_prompt_reply
             (FeedbackAgent.make stub_refinement default_model)
             template best new_template d _ Hbest eq_refl).
  exists (FeedbackAgent.feedback_prompt best template), n.
  unfold logged, w1, logged.
  cbn [trace rand_words rand_pos FeedbackAgent.model CopyWriterAgent.model].
  rewrite <- !app_assoc. reflexivity.
Qed.

(** C2: with the product "wireless earbuds", two rounds, a generation
    service that always answers with the two bulleted copies and a
    refinement service that always answers with the new template, started
    on any template that formats and on any random stream, [optimize]
    makes exactly two generation calls and two refinement calls and
    returns the string "New Template {product} {n}" as it is. *)
Theorem optimize_two_rounds_with_stubs :
  forall (template prompt : string) (words : nat -> Z) (pos : nat),
    format template "wireless earbuds" 2 = Ok prompt ->
    exists h',
      PromptOptimizer.optimize "wireless earbuds" 2
        (optimizer_with stub_generation stub_refinement template,
         mkWorld [] words pos)
      = (Ok "New Template {product} {n}", h')
      /\ gen_calls (trace (snd h')) = 2%nat
      /\ refine_calls (trace (snd h')) = 2%nat.
Proof.
  intros template prompt words pos Hfmt.
  destruct (stub_round template prompt (mkWorld [] words pos) Hfmt)
    as (input1 & n1 & Hround1).
  set (h1 := (optimizer_with stub_generation stub_refinement new_template,
              mkWorld (trace (mkWorld [] words pos)
                       ++ [GenCall 2 default_model prompt;
                           Scored ["Copy A"; "Copy B"];
                           RefineCall default_model input1])
                (rand_words (mkWorld [] words pos)) n1)) in *.
  destruct (stub_round new_template "New Template wireless earbuds 2"
              (snd h1) eq_refl) as (input2 & n2 & Hround2).
  change (optimizer_with stub_generation stub_refinement new_template,
          snd h1) with h1 in Hround2.
  eexists. unfold PromptOptimizer.optimize.
  change (Z.to_nat 2) with 2%nat. cbn [PromptOptimizer.for_range].
  unfold bind at 1 2. rewrite Hround1.
  unfold bind at 1. rewrite Hround2.
  cbn. repeat split.
Qed.

Lemma optimize_two_rounds_with_stubs_witness :
  format main_template "wireless earbuds" 2 = Ok earbuds_prompt
  /\ exists h',
       PromptOptimizer.optimize "wireless earbuds" 2
         (optimizer_with stub_generation stub_refinement main_template,
          mkWorld [] zero_words 0)
       = (Ok "New Template {product} {n}", h')
       /\ gen_calls (trace (snd h')) = 2%nat
       /\ refine_calls (trace (snd h')) = 2%nat.
Proof.
  split; [reflexivity|].
  exact (optimize_two_rounds_with_stubs main_template earbuds_prompt
           zero_words 0%nat eq_refl).
Defined.

(** * Further properties *)

(** ** What [generate_copies] returns *)

(** X1: with a count that is not negative, [generate_copies] returns at most
    that many copies. *)
Theorem generate_copies_at_most_n :
  forall (self : CopyWriterAgent.t) (product template : string) (n : Z)
         (w w' : World) (copies : list string),
    0 <= n ->
    CopyWriterAgent.generate_copies self product template n w
    = (Ok copies, w') ->
    (List.length copies <= Z.to_nat n)%nat.
Proof.
  intros self product template n w w' copies Hn Hgen.
  destruct (generate_copies_spec self product template n w)
    as [(r & Hr & Hnot)|(prompt & _ & Hcall)].
  - rewrite Hgen in Hr. injection Hr as <- _. now destruct (Hnot copies).
  - cbv zeta in Hcall.
    destruct (CopyWriterAgent.client self (trace w)
                (CopyWriterAgent.model self) prompt);
      rewrite Hgen in Hcall; [|discriminate].
    injection Hcall as -> _. now apply slice_to_length.
Qed.

Lemma generate_copies_at_most_n_witness :
  0 <= 1
  /\ CopyWriterAgent.generate_copies
       (CopyWriterAgent.make stub_generation default_model)
       "wireless earbuds" main_template 1 fresh_world
     = (Ok ["Copy A"],
        mkWorld
          [GenCall 1 default_model
             ("Generate 1 short, catchy marketing copies for wireless earbuds."
              ++ "Each copy should be under 20 words.")]
          zero_words 0)
  /\ (List.length ["Copy A"] <= Z.to_nat 1)%nat.
Proof.
  split; [lia|]. split; [reflexivity|].
  apply (generate_copies_at_most_n
           (CopyWriterAgent.make stub_generation default_model)
           "wireless earbuds" main_template 1 fresh_world
           (mkWorld
              [GenCall 1 default_model
                 ("Generate 1 short, catchy marketing copies for wireless earbuds."
                  ++ "Each copy should be under 20 words.")]
              zero_words 0)
           ["Copy A"]); [lia|reflexivity].
Defined.

(** *** Stripping twice *)

Lemma lstrip_fix drop s :
  match s with
  | EmptyString => True
  | String c _ => drop c = false
  end ->
  lstrip drop s = s.
Proof. destruct s as [|c s]; simpl; [reflexivity|]. now intros ->. Qed.

Lemma lstrip_idem drop s : lstrip drop (lstrip drop s) = lstrip drop s.
Proof.
  apply lstrip_fix.
  destruct (lstrip drop s) as [|c r] eqn:H; [exact I|].
  exact (lstrip_head _ _ _ _ H).
Qed.

Lemma rstrip_idem drop s : rstrip drop (rstrip drop s) = rstrip drop s.
Proof.
  induction s as [|c s IH]; [reflexivity|].
  cbn [rstrip]. destruct (rstrip drop s) as [|c1 r1] eqn:Hr.
  - destruct (drop c) eqn:Hc; [reflexivity|]. cbn [rstrip]. now rewrite Hc.
  - change (rstrip drop (String c (String c1 r1)))
      with (match rstrip drop (String c1 r1) with
            | EmptyString =>
                if drop c then EmptyString else String c EmptyString
            | String c2 r2 => String c (String c2 r2)
            end).
    now rewrite IH.
Qed.

Lemma lstrip_rstrip drop s :
  lstrip drop (rstrip drop (lstrip drop s)) = rstrip drop (lstrip drop s).
Proof.
  apply lstrip_fix.
  destruct (rstrip drop (lstrip drop s)) as [|c r] eqn:H; [exact I|].
  destruct (rstrip_head _ _ _ _ H) as [r' Hl].
  exact (lstrip_head _ _ _ _ Hl).
Qed.

Lemma strip_chars_idem chars s :
  strip_chars chars (strip_chars chars s) = strip_chars chars s.
Proof.
  unfold strip_chars. rewrite lstrip_rstrip. apply rstrip_idem.
Qed.

Lemma strip_idem s : strip (strip s) = strip s.
Proof. unfold strip. rewrite lstrip_rstrip. apply rstrip_idem. Qed.

(** *** Lines hold no line break *)

Lemma has_linebreak_app s c :
  has_linebreak (s ++ String c EmptyString)
  = has_linebreak s || is_linebreak c.
Proof.
  induction s as [|c0 s IH]; simpl.
  - now rewrite orb_false_r.
  - rewrite IH. now rewrite orb_assoc.
Qed.

Lemma CR_is_linebreak c : Ascii.eqb c CR = true -> is_linebreak c = true.
Proof. intros H. apply Ascii.eqb_eq in H. now subst. Qed.

Lemma splitlines_from_no_linebreak :
  forall (k : nat) (s cur : string),
    (String.length s <= k)%nat ->
    has_linebreak cur = false ->
    Forall (fun line => has_linebreak line = false) (splitlines_from cur s).
Proof.
  induction k as [|k IH]; intros s cur Hlen Hcur.
  - destruct s; [|simpl in Hlen; lia]. simpl.
    destruct (truthy cur); repeat constructor; exact Hcur.
  - destruct s as [|c rest]; cbn [splitlines_from].
    + destruct (truthy cur); repeat constructor; exact Hcur.
    + simpl in Hlen. destruct (Ascii.eqb c CR).
      * destruct rest as [|c' rest'].
        { constructor; [exact Hcur|]. apply IH; [simpl; lia|reflexivity]. }
        destruct (Ascii.eqb c' LF); (constructor; [exact Hcur|]);
          apply IH; simpl in *; try lia; reflexivity.
      * destruct (is_linebreak c) eqn:Hc.
        { constructor; [exact Hcur|]. apply IH; [lia|reflexivity]. }
        apply IH; [lia|].
        rewrite has_linebreak_app, Hcur, Hc. reflexivity.
Qed.

Lemma lstrip_no_linebreak drop s :
  has_linebreak s = false -> has_linebreak (lstrip drop s) = false.
Proof.
  induction s as [|c s IH]; simpl; [reflexivity|].
  intros H. apply orb_false_iff in H as [Hc Hs].
  destruct (drop c); [now apply IH|]. simpl. now rewrite Hc, Hs.
Qed.

Lemma rstrip_no_linebreak drop s :
  has_linebreak s = false -> has_linebreak (rstrip drop s) = false.
Proof.
  induction s as [|c s IH]; simpl; [reflexivity|].
  intros H. apply orb_false_iff in H as [Hc Hs]. specialize (IH Hs).
  destruct (rstrip drop s) as [|c1 r1].
  - destruct (drop c); [reflexivity|]. simpl. now rewrite Hc.
  - change (has_linebreak (String c (String c1 r1)))
      with (is_linebreak c || has_linebreak (String c1 r1)).
    now rewrite Hc, IH.
Qed.

Lemma stripped_lines_clean lines :
  Forall (fun line => has_linebreak line = false) lines ->
  Forall (fun copy =>
            strip_chars "- " copy = copy /\ has_linebreak copy = false)
    (CopyWriterAgent.stripped_lines lines).
Proof.
  induction 1 as [|line lines Hline Hlines IH]; simpl; [constructor|].
  destruct (truthy (strip line)); [|exact IH].
  constructor; [|exact IH]. split.
  - apply strip_chars_idem.
  - unfold strip_chars. now apply rstrip_no_linebreak, lstrip_no_linebreak.
Qed.

(** X2: every copy that [generate_copies] returns is a single line with
    nothing left to strip: no dash or space at either end, no line break
    inside. *)
Theorem generate_copies_items_clean :
  forall (self : CopyWriterAgent.t) (product template : string) (n : Z)
         (w w' : World) (copies : list string),
    CopyWriterAgent.generate_copies self product template n w
    = (Ok copies, w') ->
    Forall (fun copy =>
              strip_chars "- " copy = copy /\ has_linebreak copy = false)
      copies.
Proof.
  intros self product template n w w' copies Hgen.
  destruct (generate_copies_spec self product template n w)
    as [(r & Hr & Hnot)|(prompt & _ & Hcall)].
  - rewrite Hgen in Hr. injection Hr as <- _. now destruct (Hnot copies).
  - cbv zeta in Hcall.
    destruct (CopyWriterAgent.client self (trace w)
                (CopyWriterAgent.model self) prompt) as [text|e];
      rewrite Hgen in Hcall; [|discriminate].
    injection Hcall as -> _.
    destruct (slice_to_prefix
                (CopyWriterAgent.stripped_lines (splitlines text)) n)
      as [rest Hrest].
    assert (Hall := stripped_lines_clean (splitlines text)
                      (splitlines_from_no_linebreak _ text EmptyString
                         (le_n _) eq_refl)).
    rewrite Hrest in Hall. now apply Forall_app in Hall.
Qed.

Lemma generate_copies_items_clean_witness :
  CopyWriterAgent.generate_copies
    (CopyWriterAgent.make stub_ruled default_model)
    "wireless earbuds" main_template 2 fresh_world
  = (Ok ["Copy A"; ""],
     mkWorld [GenCall 2 default_model earbuds_prompt] zero_words 0)
  /\ Forall (fun copy =>
               strip_chars "- " copy = copy /\ has_linebreak copy = false)
       ["Copy A"; ""].
Proof.
  split; [reflexivity|].
  apply (generate_copies_items_clean
           (CopyWriterAgent.make stub_ruled default_model)
           "wireless earbuds" main_template 2 fresh_world
           (mkWorld [GenCall 2 default_model earbuds_prompt] zero_words 0)
           ["Copy A"; ""]).
  reflexivity.
Defined.

(** ** What [format] does to a template *)

Lemma result_map_map {A B C : Type} (f : A -> B) (g : B -> C) r :
  result_map g (result_map f r) = result_map (fun a => g (f a)) r.
Proof. now destruct r. Qed.

Lemma result_map_ok {A B : Type} (f : A -> B) r b :
  result_map f r = Ok b -> exists a, r = Ok a /\ b = f a.
Proof. destruct r; simpl; try discriminate. intros [= <-]. eauto. Qed.

Lemma result_map_id {A : Type} (r : result A) :
  result_map (fun a => a) r = r.
Proof. now destruct r. Qed.

Lemma format_plain (template product : string) (n : Z) :
  has_brace template = false ->
  format template product n = Ok template.
Proof.
  unfold format.
  induction template as [|c rest IH]; [reflexivity|].
  cbn [has_brace]. intros H. apply orb_false_iff in H as [Hc Hrest].
  unfold is_brace in Hc. apply orb_false_iff in Hc as [Hopen Hclose].
  cbn [format_from]. rewrite Hopen, Hclose, (IH Hrest). reflexivity.
Qed.

(** X3: A template without braces is sent as it is written. *)
Theorem format_without_braces :
  forall (template product : string) (n : Z),
    has_brace template = false ->
    format template product n = Ok template.
Proof.
  intros template product n H. exact (format_plain template product n H).
Qed.

Lemma format_without_braces_witness :
  has_brace "Write two slogans." = false
  /\ format "Write two slogans." "wireless earbuds" 2
     = Ok "Write two slogans.".
Proof.
  split; [reflexivity|].
  apply (format_without_braces "Write two slogans." "wireless earbuds" 2).
  reflexivity.
Defined.

Lemma string_app_assoc (x y z : string) :
  ((x ++ y) ++ z = x ++ (y ++ z))%string.
Proof. induction x as [|c x IH]; simpl; [reflexivity|now rewrite IH]. Qed.

Lemma format_from_app product n (b : string) :
  forall (k : nat) (a : string) (m : format_mode) (a' : string),
    (String.length a <= k)%nat ->
    format_from product n m a = Ok a' ->
    format_from product n m (a ++ b)
    = result_map (append a') (format_from product n Literal b).
Proof.
  induction k as [|k IH]; intros a m a' Hlen.
  - destruct a; [|simpl in Hlen; lia].
    destruct m; simpl; [|discriminate].
    intros [= <-]. symmetry. apply result_map_id.
  - destruct a as [|c rest]; destruct m as [|name];
      cbn [format_from append]; try discriminate.
    + intros [= <-]. symmetry. apply result_map_id.
    + simpl in Hlen. destruct (Ascii.eqb c "{").
      { destruct rest as [|c' rest']; [discriminate|].
        cbn [append]. destruct (Ascii.eqb c' "{").
        - intros H. apply result_map_ok in H as (x & Hx & ->).
          rewrite (IH rest' Literal x); [|simpl in Hlen; lia|exact Hx].
          now rewrite result_map_map.
        - intros H. apply (IH (String c' rest') (Field EmptyString) a');
            [lia|exact H]. }
      destruct (Ascii.eqb c "}").
      { destruct rest as [|c' rest']; [discriminate|].
        cbn [append]. destruct (Ascii.eqb c' "}"); [|discriminate].
        intros H. apply result_map_ok in H as (x & Hx & ->).
        rewrite (IH rest' Literal x); [|simpl in Hlen; lia|exact Hx].
        now rewrite result_map_map. }
      intros H. apply result_map_ok in H as (x & Hx & ->).
      rewrite (IH rest Literal x); [|lia|exact Hx].
      now rewrite result_map_map.
    + simpl in Hlen. destruct (Ascii.eqb c "}").
      { destruct (get_field name product n) as [v|e|]; cbn [result_bind];
          try discriminate.
        intros H. apply result_map_ok in H as (x & Hx & ->).
        rewrite (IH rest Literal x); [|lia|exact Hx].
        rewrite result_map_map.
        destruct (format_from product n Literal b); simpl; try reflexivity.
        now rewrite string_app_assoc. }
      destruct (Ascii.eqb c "{"); [discriminate|].
      destruct (mem_char c ":![."); [discriminate|].
      apply IH. lia.
Qed.

(** X4: formatting is compositional: what follows a template that formats
    does not change how that template is formatted. *)
Theorem format_app :
  forall (a b product a' : string) (n : Z),
    format a product n = Ok a' ->
    format (a ++ b) product n = result_map (append a') (format b product n).
Proof.
  intros a b product a' n H.
  exact (format_from_app product n b (String.length a) a Literal a'
           (le_n _) H).
Qed.

Lemma format_app_witness :
  format "For {product}: " "wireless earbuds" 2 = Ok "For wireless earbuds: "
  /\ format ("For {product}: " ++ "{n} slogans, {tone}.") "wireless earbuds" 2
     = result_map (append "For wireless earbuds: ")
         (format "{n} slogans, {tone}." "wireless earbuds" 2).
Proof.
  split; [reflexivity|].
  apply (format_app "For {product}: " "{n} slogans, {tone}."
           "wireless earbuds" "For wireless earbuds: " 2).
  reflexivity.
Defined.






(** ** What the tester stores *)

Lemma random_random_eq (w : World) :
  random_random w = (Ok (score_at w 0), advance w).
Proof.
  unfold random_random, bind, genrand_uint32, ret, score_at, advance.
  cbn [trace rand_words rand_pos].
  replace (rand_pos w + 2 * 0)%nat with (rand_pos w) by lia.
  replace (rand_pos w + 1)%nat with (S (rand_pos w)) by lia.
  reflexivity.
Qed.

Lemma score_at_advance (w : World) (i : nat) :
  score_at (advance w) i = score_at w (S i).
Proof.
  unfold score_at, advance. cbn [rand_words rand_pos].
  replace (S (S (rand_pos w)) + 2 * i)%nat
    with (rand_pos w + 2 * S i)%nat by lia.
  reflexivity.
Qed.

Lemma run_from_cons (d : dict) (copy : string) (copies : list string)
  (w : World) :
  ABTesterAgent.run_from d (copy :: copies) w
  = ABTesterAgent.run_from (dict_set d copy (score_at w 0)) copies
      (advance w).
Proof.
  cbn [ABTesterAgent.run_from].
  exact (bind_ok _ _ _ _ _ (random_random_eq w)).
Qed.

Lemma mem_string_spec (k : string) (l : list string) :
  mem_string k l = true <-> In k l.
Proof.
  unfold mem_string. rewrite existsb_exists. split.
  - intros [x [Hin Heq]]. apply String.eqb_eq in Heq. now subst.
  - intros Hin. exists k. split; [exact Hin|apply String.eqb_refl].
Qed.

Lemma dict_set_keys_eq (d : dict) (k : string) (v : pyfloat) :
  dict_keys (dict_set d k v)
  = if mem_string k (dict_keys d) then dict_keys d else dict_keys d ++ [k].
Proof.
  induction d as [|[k0 v0] d IH]; [reflexivity|].
  cbn [dict_set dict_keys map fst mem_string existsb].
  rewrite (String.eqb_sym k k0).
  destruct (k0 =? k)%string; cbn [orb map fst]; [reflexivity|].
  unfold dict_keys, mem_string in IH. rewrite IH.
  now destruct (existsb (String.eqb k) (map fst d)).
Qed.

Lemma dict_get_set (d : dict) (k k' : string) (v : pyfloat) :
  dict_get (dict_set d k v) k'
  = if (k =? k')%string then Some v else dict_get d k'.
Proof.
  induction d as [|[k0 v0] d IH]; [reflexivity|].
  cbn [dict_set dict_get].
  destruct (String.eqb_spec k0 k) as [->|Hne]; cbn [dict_get].
  - now destruct (k =? k')%string.
  - rewrite IH.
    destruct (String.eqb_spec k0 k') as [->|Hne'];
      [|reflexivity].
    destruct (String.eqb_spec k k') as [->|_]; [congruence|reflexivity].
Qed.

Lemma filter_filter {A : Type} (f g : A -> bool) (l : list A) :
  filter f (filter g l) = filter (fun x => g x && f x) l.
Proof.
  induction l as [|x l IH]; [reflexivity|].
  simpl. destruct (g x); simpl; [|exact IH].
  destruct (f x); now rewrite IH.
Qed.

Lemma run_from_keys :
  forall (copies : list string) (d : dict) (w : World),
    exists d',
      ABTesterAgent.run_from d copies w
      = (Ok d',
         mkWorld (trace w) (rand_words w)
           (rand_pos w + 2 * List.length copies))
      /\ dict_keys d'
         = dict_keys d
           ++ filter (fun y => negb (mem_string y (dict_keys d)))
                (first_occurrences copies).
Proof.
  induction copies as [|copy copies IH]; intros d w.
  - exists d. split.
    + cbn [ABTesterAgent.run_from List.length]. unfold ret.
      replace (rand_pos w + 2 * 0)%nat with (rand_pos w) by lia.
      now destruct w.
    + simpl. now rewrite app_nil_r.
  - destruct (IH (dict_set d copy (score_at w 0)) (advance w))
      as [d' [Hrun Hkeys]].
    exists d'. split.
    + rewrite run_from_cons, Hrun. unfold advance.
      cbn [trace rand_words rand_pos List.length]. f_equal. f_equal. lia.
    + rewrite Hkeys, dict_set_keys_eq.
      cbn [first_occurrences filter]. rewrite filter_filter.
      destruct (mem_string copy (dict_keys d)) eqn:Hmem; cbn [negb].
      * f_equal. apply filter_ext_in. intros y _.
        destruct (String.eqb_spec copy y) as [<-|_]; cbn [negb andb];
          [now rewrite Hmem|reflexivity].
      * rewrite <- app_assoc. cbn [app]. f_equal. f_equal.
        apply filter_ext. intros y. unfold mem_string.
        rewrite existsb_app. cbn [existsb]. rewrite orb_false_r.
        rewrite (String.eqb_sym y copy).
        now destruct (existsb (String.eqb y) (dict_keys d)),
          (copy =? y)%string.
Qed.

Lemma filter_true {A : Type} (l : list A) : filter (fun _ => true) l = l.
Proof. induction l as [|x l IH]; simpl; [reflexivity|now rewrite IH]. Qed.

(** X6: the tester keeps the candidates in the order of their first
    occurrence, draws one score per candidate of the input, repeated ones
    included, and calls no service. *)
Theorem run_order_and_draws :
  forall (self : ABTesterAgent.t) (copies : list string) (w : World),
    exists d,
      ABTesterAgent.run self copies w
      = (Ok d,
         mkWorld (trace w ++ [Scored copies]) (rand_words w)
           (rand_pos w + 2 * List.length copies))
      /\ dict_keys d = first_occurrences copies
      /\ service_calls (trace w ++ [Scored copies]) = service_calls (trace w).
Proof.
  intros self copies w.
  destruct (run_from_keys copies []
              (mkWorld (trace w ++ [Scored copies]) (rand_words w)
                 (rand_pos w))) as [d [Hrun Hkeys]].
  exists d. repeat split.
  - unfold ABTesterAgent.run, bind, emit. exact Hrun.
  - rewrite Hkeys. cbn [dict_keys map app mem_string existsb negb].
    apply filter_true.
  - unfold service_calls, gen_calls, refine_calls.
    rewrite !filter_app. cbn [filter is_gen_call is_refine_call].
    now rewrite !app_nil_r.
Qed.

Lemma run_from_get_absent (c : string) :
  forall (copies : list string) (d d' : dict) (w w' : World),
    ABTesterAgent.run_from d copies w = (Ok d', w') ->
    ~ In c copies ->
    dict_get d' c = dict_get d c.
Proof.
  induction copies as [|copy copies IH]; intros d d' w w' Hrun Hnotin.
  - cbn in Hrun. now injection Hrun as <- _.
  - rewrite run_from_cons in Hrun.
    rewrite (IH _ _ _ _ Hrun); [|intros Hin; apply Hnotin; now right].
    rewrite dict_get_set.
    destruct (String.eqb_spec copy c) as [->|_]; [|reflexivity].
    exfalso. apply Hnotin. now left.
Qed.

Lemma run_from_last (c : string) :
  forall (copies : list string) (d d' : dict) (w w' : World) (i : nat),
    ABTesterAgent.run_from d copies w = (Ok d', w') ->
    nth_error copies i = Some c ->
    (forall j, (i < j)%nat -> nth_error copies j <> Some c) ->
    dict_get d' c = Some (score_at w i).
Proof.
  induction copies as [|copy copies IH]; intros d d' w w' i Hrun Hi Hlast.
  - destruct i; discriminate.
  - rewrite run_from_cons in Hrun. destruct i as [|i].
    + injection Hi as ->.
      rewrite (run_from_get_absent c _ _ _ _ _ Hrun).
      * rewrite dict_get_set. now rewrite String.eqb_refl.
      * intros Hin. apply In_nth_error in Hin as [j Hj].
        apply (Hlast (S j)); [lia|exact Hj].
    + rewrite <- score_at_advance.
      apply (IH _ _ _ _ _ Hrun Hi).
      intros j Hlt. apply (Hlast (S j)). lia.
Qed.

(** X7: when a candidate comes more than once, the score it ends up with is
    the one drawn at its last occurrence. *)
Theorem run_last_draw_wins :
  forall (self : ABTesterAgent.t) (copies : list string) (w w' : World)
         (d : dict) (i : nat) (c : string),
    ABTesterAgent.run self copies w = (Ok d, w') ->
    nth_error copies i = Some c ->
    (forall j, (i < j)%nat -> nth_error copies j <> Some c) ->
    dict_get d c = Some (score_at w i).
Proof.
  intros self copies w w' d i c Hrun Hi Hlast.
  unfold ABTesterAgent.run, bind, emit in Hrun.
  exact (run_from_last c copies [] d _ w' i Hrun Hi Hlast).
Qed.

Lemma run_last_draw_wins_witness :
  (ABTesterAgent.run ABTesterAgent.make repeated_copies counting_world
   = (Ok [("a", score_at counting_world 2); ("b", score_at counting_world 1)],
      mkWorld [Scored repeated_copies] (rand_words counting_world) 6)
   /\ nth_error repeated_copies 2 = Some "a"%string
   /\ (forall j, (2 < j)%nat -> nth_error repeated_copies j <> Some "a"%string))
  /\ dict_get
       [("a", score_at counting_world 2); ("b", score_at counting_world 1)]
       "a"
     = Some (score_at counting_world 2).
Proof.
  assert (Hlast : forall j, (2 < j)%nat ->
                    nth_error repeated_copies j <> Some "a"%string).
  { intros [|[|[|j]]] Hj; try lia. simpl. now destruct j. }
  split; [split; [reflexivity|split; [reflexivity|exact Hlast]]|].
  exact (run_last_draw_wins ABTesterAgent.make repeated_copies counting_world
           (mkWorld [Scored repeated_copies] (rand_words counting_world) 6)
           [("a", score_at counting_world 2); ("b", score_at counting_world 1)]
           2 "a" eq_refl eq_refl Hlast).
Defined.

(** ** Which candidate the refiner takes *)

Lemma fgt_true_iff (a b : Q) :
  fgt (Finite a) (Finite b) = true <-> (b < a)%Q.
Proof.
  unfold fgt. rewrite negb_true_iff. split.
  - intros H. apply Qnot_le_lt. intros Hle.
    apply Qle_bool_iff in Hle. congruence.
  - intros H. destruct (Qle_bool a b) eqn:Hle; [|reflexivity].
    apply Qle_bool_iff in Hle. exfalso. exact (Qlt_not_le _ _ H Hle).
Qed.

Lemma fgt_trans (a b c : pyfloat) :
  fgt a b = true -> fgt b c = true -> fgt a c = true.
Proof.
  destruct a as [qa| | |], b as [qb| | |], c as [qc| | |];
    try reflexivity; try discriminate.
  rewrite !fgt_true_iff. intros Hab Hbc.
  apply Qlt_le_weak in Hab. exact (Qlt_le_trans _ _ _ Hbc Hab).
Qed.

Lemma fgt_le_trans (a b c : pyfloat) :
  is_nan c = false ->
  fgt a b = true -> fgt c b = false -> fgt a c = true.
Proof.
  destruct a as [qa| | |], b as [qb| | |], c as [qc| | |];
    try reflexivity; try discriminate; intros _.
  rewrite !fgt_true_iff, fgt_false_iff. intros Hab Hcb.
  exact (Qle_lt_trans _ _ _ Hcb Hab).
Qed.

(** The loop of [max] over the rest of a dict: the entries before the
    candidate are smaller, those seen after it are not greater. *)
Lemma max_loop_first (d : dict) :
  dict_wf d ->
  (forall kv, In kv d -> is_nan (snd kv) = false) ->
  forall (rest pre : dict) (bk : string) (bv : pyfloat) (post : dict),
    d = pre ++ (bk, bv) :: post ++ rest ->
    Forall (fun kv => fgt bv (snd kv) = true) pre ->
    Forall (fun kv => fgt (snd kv) bv = false) post ->
    exists pre' bk' bv' post',
      max_loop (dict_get d) (dict_keys rest) bk (Some bv) = Ok bk'
      /\ d = pre' ++ (bk', bv') :: post'
      /\ Forall (fun kv => fgt bv' (snd kv) = true) pre'
      /\ Forall (fun kv => fgt (snd kv) bv' = false) post'.
Proof.
  intros Hwf Hnan.
  induction rest as [|[k v] rest IH]; intros pre bk bv post Hd Hpre Hpost.
  - exists pre, bk, bv, post. rewrite app_nil_r in Hd. now repeat split.
  - assert (Hin : In (k, v) d).
    { rewrite Hd. apply in_or_app. right. right.
      apply in_or_app. right. now left. }
    cbn [dict_keys map fst max_loop].
    rewrite (dict_get_in d Hwf k v Hin). cbn [key_gt].
    destruct (fgt v bv) eqn:Hcmp.
    + apply (IH (pre ++ (bk, bv) :: post) k v []).
      * rewrite Hd. rewrite <- app_assoc. reflexivity.
      * apply Forall_app. split; [|constructor].
        -- eapply Forall_impl; [|exact Hpre]. cbn beta.
           intros kv Hkv. exact (fgt_trans _ _ _ Hcmp Hkv).
        -- exact Hcmp.
        -- apply Forall_forall. intros kv Hkv.
           apply (fgt_le_trans v bv (snd kv)); [|exact Hcmp|].
           ++ apply Hnan. rewrite Hd. apply in_or_app. right. right.
              apply in_or_app. now left.
           ++ exact (proj1 (Forall_forall _ _) Hpost kv Hkv).
      * constructor.
    + apply (IH pre bk bv (post ++ [(k, v)])).
      * rewrite Hd. rewrite <- app_assoc. reflexivity.
      * exact Hpre.
      * apply Forall_app. split; [exact Hpost|].
        constructor; [exact Hcmp|constructor].
Qed.

(** X8: among candidates without a NaN score the refiner takes the first one
    whose score is greatest: every candidate stored before it scored less,
    none stored after it scored more. *)
Theorem improve_prompt_takes_first_maximum :
  forall (self : FeedbackAgent.t) (template : string) (d : dict) (w : World),
    d <> [] -> dict_wf d ->
    Forall (fun v => is_nan v = false) (dict_values d) ->
    exists pre best v post,
      d = pre ++ (best, v) :: post
      /\ Forall (fun kv => fgt v (snd kv) = true) pre
      /\ Forall (fun kv => fgt (snd kv) v = false) post
      /\ trace (snd (FeedbackAgent.improve_prompt self template d w))
         = trace w
           ++ [RefineCall (FeedbackAgent.model self)
                 (FeedbackAgent.feedback_prompt best template)].
Proof.
  intros self template d w Hne Hwf Hnan.
  assert (Hnan' : forall kv, In kv d -> is_nan (snd kv) = false).
  { intros kv Hin. apply (proj1 (Forall_forall _ _) Hnan).
    unfold dict_values. now apply in_map. }
  destruct d as [|[k0 v0] d']; [congruence|].
  destruct (max_loop_first _ Hwf Hnan' d' [] k0 v0 [] eq_refl
              (Forall_nil _) (Forall_nil _))
    as (pre & best & v & post & Hloop & Hd & Hpre & Hpost).
  exists pre, best, v, post. repeat split; try assumption.
  apply improve_prompt_trace.
  unfold py_max. cbn [dict_keys map fst].
  rewrite (dict_get_in _ Hwf k0 v0 (or_introl eq_refl)). exact Hloop.
Qed.

Lemma improve_prompt_takes_first_maximum_witness :
  (tied_scores <> [] /\ dict_wf tied_scores
   /\ Forall (fun v => is_nan v = false) (dict_values tied_scores))
  /\ exists pre best v post,
       tied_scores = pre ++ (best, v) :: post
       /\ Forall (fun kv => fgt v (snd kv) = true) pre
       /\ Forall (fun kv => fgt (snd kv) v = false) post
       /\ trace (snd (FeedbackAgent.improve_prompt
                        (FeedbackAgent.make stub_refinement default_model)
                        main_template tied_scores fresh_world))
          = trace fresh_world
            ++ [RefineCall default_model
                  (FeedbackAgent.feedback_prompt best main_template)].
Proof.
  assert (Hne : tied_scores <> []) by discriminate.
  assert (Hwf : dict_wf tied_scores).
  { repeat constructor; simpl; intuition discriminate. }
  assert (Hnan : Forall (fun v => is_nan v = false) (dict_values tied_scores)).
  { repeat constructor. }
  split; [auto|].
  exact (improve_prompt_takes_first_maximum
           (FeedbackAgent.make stub_refinement default_model)
           main_template tied_scores fresh_world Hne Hwf Hnan).
Defined.

(** ** What [improve_prompt] sends and returns *)

Lemma dict_get_key (d : dict) (k : string) :
  In k (dict_keys d) -> exists v, dict_get d k = Some v.
Proof.
  induction d as [|[k0 v0] d IH]; simpl; [tauto|].
  intros [->|Hin].
  - rewrite String.eqb_refl. eauto.
  - destruct (k0 =? k)%string; [eauto|now apply IH].
Qed.

Lemma max_loop_ok {A : Type} (key : A -> option pyfloat) :
  forall (items : list A) (mi : A) (m0 : pyfloat),
    (forall x, In x items -> exists v, key x = Some v) ->
    exists best,
      max_loop key items mi (Some m0) = Ok best
      /\ (best = mi \/ In best items).
Proof.
  induction items as [|item items IH]; intros mi m0 Hkey.
  - exists mi. split; [reflexivity|now left].
  - destruct (Hkey item (or_introl eq_refl)) as [v Hv].
    cbn [max_loop]. rewrite Hv. cbn [key_gt].
    destruct (fgt v m0).
    + destruct (IH item v) as [best [Hloop Hin]].
      { intros x Hx. apply Hkey. now right. }
      exists best. split; [exact Hloop|].
      right. destruct Hin as [->|Hin]; [now left|now right].
    + destruct (IH mi m0) as [best [Hloop Hin]].
      { intros x Hx. apply Hkey. now right. }
      exists best. split; [exact Hloop|].
      destruct Hin as [->|Hin]; [now left|right; now right].
Qed.

Lemma py_max_keys_ok (d : dict) :
  d <> [] ->
  exists best,
    py_max (dict_get d) (dict_keys d) = Ok best /\ In best (dict_keys d).
Proof.
  intros Hne. destruct d as [|[k0 v0] d']; [congruence|].
  set (d := (k0, v0) :: d').
  destruct (dict_get_key d k0 (or_introl eq_refl)) as [m0 Hm0].
  destruct (max_loop_ok (dict_get d) (dict_keys d') k0 m0) as [best [Hloop Hin]].
  { intros x Hx. apply dict_get_key. now right. }
  exists best. split.
  - unfold py_max. cbn [dict_keys map fst d]. fold d. rewrite Hm0.
    exact Hloop.
  - cbn [dict_keys map fst d]. destruct Hin as [->|Hin]; [now left|now right].
Qed.

(** X9: on every mapping that is not empty, whatever its scores,
    [improve_prompt] sends exactly one request, which embeds one of the
    candidates and the template; it returns the stripped answer, or raises
    what the service raised. *)
Theorem improve_prompt_sends_one_request :
  forall (self : FeedbackAgent.t) (template : string) (d : dict) (w : World),
    d <> [] ->
    exists best,
      In best (dict_keys d)
      /\ let input := FeedbackAgent.feedback_prompt best template in
         FeedbackAgent.improve_prompt self template d w
         = (match FeedbackAgent.client self (trace w)
                    (FeedbackAgent.model self) input with
            | Reply text => Ok (strip text)
            | Failure e => Raise e
            end,
            logged w (RefineCall (FeedbackAgent.model self) input)).
Proof.
  intros self template d w Hne.
  destruct (py_max_keys_ok d Hne) as [best [Hbest Hin]].
  exists best. split; [exact Hin|]. cbv zeta.
  unfold FeedbackAgent.improve_prompt, bind, lift_result, responses_create.
  rewrite Hbest. unfold logged.
  now destruct (FeedbackAgent.client self (trace w) (FeedbackAgent.model self)
                  (FeedbackAgent.feedback_prompt best template)).
Qed.

Lemma improve_prompt_sends_one_request_witness :
  nan_scores <> []
  /\ exists best,
       In best (dict_keys nan_scores)
       /\ let input := FeedbackAgent.feedback_prompt best main_template in
          FeedbackAgent.improve_prompt
            (FeedbackAgent.make stub_refinement default_model)
            main_template nan_scores fresh_world
          = (match stub_refinement (trace fresh_world) default_model input with
             | Reply text => Ok (strip text)
             | Failure e => Raise e
             end,
             logged fresh_world (RefineCall default_model input)).
Proof.
  split; [discriminate|].
  apply (improve_prompt_sends_one_request
           (FeedbackAgent.make stub_refinement default_model)
           main_template nan_scores fresh_world).
  discriminate.
Defined.

Lemma improve_prompt_ok_stripped (self : FeedbackAgent.t)
  (template new : string) (d : dict) (w w' : World) :
  FeedbackAgent.improve_prompt self template d w = (Ok new, w') ->
  strip new = new.
Proof.
  intros Himp.
  destruct (improve_prompt_spec self template d w)
    as [(r & Hr & Hnot)|(best & _ & Hcall)].
  - rewrite Himp in Hr. injection Hr as <- _. now destruct (Hnot new).
  - cbv zeta in Hcall.
    destruct (FeedbackAgent.client self (trace w) (FeedbackAgent.model self)
                (FeedbackAgent.feedback_prompt best template));
      rewrite Himp in Hcall; [|discriminate].
    injection Hcall as -> _. apply strip_idem.
Qed.

(** X10: the template that [improve_prompt] returns has no whitespace left at
    either end. *)
Theorem improve_prompt_result_stripped :
  forall (self : FeedbackAgent.t) (template new : string) (d : dict)
         (w w' : World),
    FeedbackAgent.improve_prompt self template d w = (Ok new, w') ->
    strip new = new.
Proof.
  intros self template new d w w' Himp.
  exact (improve_prompt_ok_stripped self template new d w w' Himp).
Qed.

Lemma improve_prompt_result_stripped_witness :
  FeedbackAgent.improve_prompt
    (FeedbackAgent.make (fun _ _ _ => Reply "  Sell {product} in {n} lines. ")
       default_model)
    main_template plain_scores fresh_world
  = (Ok "Sell {product} in {n} lines.",
     logged fresh_world
       (RefineCall default_model
          (FeedbackAgent.feedback_prompt "Copy B" main_template)))
  /\ strip "Sell {product} in {n} lines." = "Sell {product} in {n} lines."%string.
Proof.
  split; [reflexivity|].
  apply (improve_prompt_result_stripped
           (FeedbackAgent.make
              (fun _ _ _ => Reply "  Sell {product} in {n} lines. ")
              default_model)
           main_template "Sell {product} in {n} lines." plain_scores
           fresh_world
           (logged fresh_world
              (RefineCall default_model
                 (FeedbackAgent.feedback_prompt "Copy B" main_template)))).
  reflexivity.
Defined.

(** ** The loop of the optimizer *)

(** X11: A number of rounds that is zero or negative gives no round at all:
    the stored template comes back, nothing is called, nothing changes. *)
Theorem optimize_no_positive_rounds :
  forall (product : string) (rounds : Z) (h : PromptOptimizer.Heap),
    rounds <= 0 ->
    PromptOptimizer.optimize product rounds h
    = (Ok (PromptOptimizer.template (fst h)), h).
Proof.
  intros product rounds h Hle. unfold PromptOptimizer.optimize.
  replace (Z.to_nat rounds) with 0%nat by lia.
  now destruct h.
Qed.

Lemma optimize_no_positive_rounds_witness :
  -3 <= 0
  /\ PromptOptimizer.optimize "wireless earbuds" (-3) once_heap
     = (Ok main_template, once_heap).
Proof.
  split; [lia|].
  apply (optimize_no_positive_rounds "wireless earbuds" (-3) once_heap). lia.
Defined.

(** A completed round, with all that it leaves behind. *)
Lemma round_ok (product : string) (self : PromptOptimizer.t) (w : World)
  (h' : PromptOptimizer.Heap) :
  PromptOptimizer.round product (self, w) = (Ok tt, h') ->
  exists prompt copies input new n,
    format (PromptOptimizer.template self) product 2 = Ok prompt
    /\ strip new = new
    /\ h' = (PromptOptimizer.make (PromptOptimizer.copy_agent self)
               (PromptOptimizer.tester self) (PromptOptimizer.fb_agent self)
               new,
             mkWorld
               (trace w
                ++ [GenCall 2
                      (CopyWriterAgent.model (PromptOptimizer.copy_agent self))
                      prompt;
                    Scored copies;
                    RefineCall
                      (FeedbackAgent.model (PromptOptimizer.fb_agent self))
                      input])
               (rand_words w) n).
Proof.
  rewrite round_unfold.
  destruct (generate_copies_spec (PromptOptimizer.copy_agent self) product
              (PromptOptimizer.template self) CopyWriterAgent.default_n w)
    as [(r & -> & Hnot)|(prompt & Hfmt & Hcall)].
  { destruct r as [copies|e|]; try discriminate. now destruct (Hnot copies). }
  cbv zeta in Hcall.
  destruct (CopyWriterAgent.client _ (trace w) _ prompt) as [text|e];
    rewrite Hcall; [|discriminate].
  set (copies := slice_to _ _). set (w1 := logged w _).
  destruct (run_spec (PromptOptimizer.tester self) copies w1)
    as (d & n & -> & _).
  set (w2 := mkWorld _ _ n).
  destruct (FeedbackAgent.improve_prompt (PromptOptimizer.fb_agent self)
              (PromptOptimizer.template self) d w2)
    as [[new|e|] w3] eqn:Himp; try discriminate.
  intros [= <-].
  pose proof (improve_prompt_ok_stripped _ _ _ _ _ _ Himp) as Hstrip.
  destruct (improve_prompt_spec (PromptOptimizer.fb_agent self)
              (PromptOptimizer.template self) d w2)
    as [(r & Hr & Hnot)|(best & _ & Hcall2)].
  { rewrite Himp in Hr. injection Hr as <- _. now destruct (Hnot new). }
  cbv zeta in Hcall2.
  destruct (FeedbackAgent.client _ (trace w2) _ _);
    rewrite Himp in Hcall2; [|discriminate].
  injection Hcall2 as _ ->.
  exists prompt, copies,
    (FeedbackAgent.feedback_prompt best (PromptOptimizer.template self)),
    new, n.
  repeat split; [exact Hfmt|exact Hstrip|].
  unfold logged, w2, w1, logged.
  cbn [trace rand_words rand_pos]. rewrite <- !app_assoc. reflexivity.
Qed.

Lemma round_keeps_agents (product : string) (h : PromptOptimizer.Heap) :
  let self' := fst (snd (PromptOptimizer.round product h)) in
  PromptOptimizer.copy_agent self' = PromptOptimizer.copy_agent (fst h)
  /\ PromptOptimizer.tester self' = PromptOptimizer.tester (fst h)
  /\ PromptOptimizer.fb_agent self' = PromptOptimizer.fb_agent (fst h).
Proof.
  destruct h as [self w]. cbv zeta. rewrite round_unfold.
  destruct (CopyWriterAgent.generate_copies _ _ _ _ w) as [[copies|e|] w1];
    try (now repeat split).
  destruct (ABTesterAgent.run _ copies w1) as [[results|e|] w2];
    try (now repeat split).
  destruct (FeedbackAgent.improve_prompt _ _ results w2) as [[new|e|] w3];
    now repeat split.
Qed.

Lemma for_range_keeps_agents (product : string) (k : nat) :
  forall h : PromptOptimizer.Heap,
    let self' :=
      fst (snd (PromptOptimizer.for_range k (PromptOptimizer.round product)
                  h)) in
    PromptOptimizer.copy_agent self' = PromptOptimizer.copy_agent (fst h)
    /\ PromptOptimizer.tester self' = PromptOptimizer.tester (fst h)
    /\ PromptOptimizer.fb_agent self' = PromptOptimizer.fb_agent (fst h).
Proof.
  induction k as [|k IH]; intros h; cbv zeta.
  - now repeat split.
  - cbn [PromptOptimizer.for_range]. unfold bind.
    pose proof (round_keeps_agents product h) as Hround. cbv zeta in Hround.
    destruct (PromptOptimizer.round product h) as [[[]|e|] h1];
      cbn [fst snd] in *; try exact Hround.
    specialize (IH h1). cbv zeta in IH.
    destruct IH as (H1 & H2 & H3). destruct Hround as (R1 & R2 & R3).
    repeat split; congruence.
Qed.

(** X12: whatever the number of rounds and however the run ends, [optimize]
    leaves the three agents of the optimizer as they were: the template is
    the only attribute it assigns. *)
Theorem optimize_keeps_agents :
  forall (product : string) (rounds : Z) (h : PromptOptimizer.Heap),
    let self' := fst (snd (PromptOptimizer.optimize product rounds h)) in
    PromptOptimizer.copy_agent self' = PromptOptimizer.copy_agent (fst h)
    /\ PromptOptimizer.tester self' = PromptOptimizer.tester (fst h)
    /\ PromptOptimizer.fb_agent self' = PromptOptimizer.fb_agent (fst h).
Proof.
  intros product rounds h. cbv zeta.
  pose proof (for_range_keeps_agents product (Z.to_nat rounds) h) as Hloop.
  cbv zeta in Hloop.
  unfold PromptOptimizer.optimize, bind.
  destruct (PromptOptimizer.for_range _ _ h) as [[[]|e|] h1];
    cbn [fst snd] in *; exact Hloop.
Qed.

Lemma for_range_ok_events (product : string) :
  forall (k : nat) (h h' : PromptOptimizer.Heap),
    PromptOptimizer.for_range k (PromptOptimizer.round product) h
    = (Ok tt, h') ->
    exists rs,
      trace (snd h') = trace (snd h) ++ List.concat rs
      /\ List.length rs = k
      /\ Forall (round_events (fst h)) rs.
Proof.
  induction k as [|k IH]; intros h h' Hrun.
  - cbn in Hrun. injection Hrun as <-.
    exists []. cbn. rewrite app_nil_r. repeat split. constructor.
  - cbn [PromptOptimizer.for_range] in Hrun. unfold bind in Hrun.
    destruct (PromptOptimizer.round product h) as [[[]|e|] h1] eqn:Hround;
      try discriminate.
    destruct h as [self w].
    destruct (round_ok _ _ _ _ Hround)
      as (prompt & copies & input & new & n & _ & _ & ->).
    destruct (IH _ _ Hrun) as (rs & Htrace & Hlen & Hall).
    cbn [fst snd trace] in *.
    eexists (_ :: rs). repeat split.
    + rewrite Htrace. cbn [List.concat]. rewrite <- app_assoc. reflexivity.
    + cbn. now rewrite Hlen.
    + constructor; [|exact Hall]. now exists prompt, copies, input.
Qed.

Lemma round_events_counts (self : PromptOptimizer.t) (rs : list (list event)) :
  Forall (round_events self) rs ->
  gen_calls (List.concat rs) = List.length rs
  /\ refine_calls (List.concat rs) = List.length rs.
Proof.
  unfold gen_calls, refine_calls.
  induction 1 as [|evs rs (prompt & copies & input & ->) _ [IHg IHr]];
    [now split|].
  cbn [List.concat]. rewrite !filter_app, !length_app, IHg, IHr.
  now split.
Qed.

(** X13: A run of [optimize] that completes has made, round after round, one
    generation call for two copies, one scoring and one refinement call,
    in that order: as many generation calls and as many refinement calls
    as there were rounds, and nothing else; the template it returns is the
    one the optimizer then holds. *)
Theorem optimize_completed_run :
  forall (product : string) (rounds : Z) (h h' : PromptOptimizer.Heap)
         (final : string),
    PromptOptimizer.optimize product rounds h = (Ok final, h') ->
    exists rs,
      trace (snd h') = trace (snd h) ++ List.concat rs
      /\ Forall (round_events (fst h)) rs
      /\ List.length rs = Z.to_nat rounds
      /\ gen_calls (List.concat rs) = Z.to_nat rounds
      /\ refine_calls (List.concat rs) = Z.to_nat rounds
      /\ final = PromptOptimizer.template (fst h').
Proof.
  intros product rounds h h' final Hopt.
  unfold PromptOptimizer.optimize, bind in Hopt.
  destruct (PromptOptimizer.for_range _ _ h) as [[[]|e|] h1] eqn:Hloop;
    try discriminate.
  cbn in Hopt. injection Hopt as <- <-.
  destruct (for_range_ok_events _ _ _ _ Hloop) as (rs & Htrace & Hlen & Hall).
  destruct (round_events_counts _ _ Hall) as [Hg Hr].
  exists rs. repeat split; try assumption; congruence.
Qed.

Lemma optimize_completed_run_witness :
  PromptOptimizer.optimize "wireless earbuds" 1 once_heap
  = (Ok new_template, once_heap_after_round_1)
  /\ exists rs,
       trace (snd once_heap_after_round_1)
       = trace (snd once_heap) ++ List.concat rs
       /\ Forall (round_events (fst once_heap)) rs
       /\ List.length rs = Z.to_nat 1
       /\ gen_calls (List.concat rs) = Z.to_nat 1
       /\ refine_calls (List.concat rs) = Z.to_nat 1
       /\ new_template = PromptOptimizer.template (fst once_heap_after_round_1).
Proof.
  split; [reflexivity|].
  apply (optimize_completed_run "wireless earbuds" 1 once_heap
           once_heap_after_round_1 new_template).
  reflexivity.
Defined.

Lemma for_range_add (body : M PromptOptimizer.Heap unit) (a b : nat) :
  forall h : PromptOptimizer.Heap,
    PromptOptimizer.for_range (a + b) body h
    = bind (PromptOptimizer.for_range a body)
        (fun _ => PromptOptimizer.for_range b body) h.
Proof.
  induction a as [|a IH]; intros h; [reflexivity|].
  cbn [Nat.add PromptOptimizer.for_range]. unfold bind.
  destruct (body h) as [[[]|e|] h1]; try reflexivity.
  rewrite IH. reflexivity.
Qed.

(** X14: rounds add up: a run of [a + b] rounds is a run of [a] rounds followed,
    when it completes, by a run of [b] rounds on the optimizer it leaves;
    when it does not, the longer run ends the same way. *)
Theorem optimize_split :
  forall (product : string) (a b : Z) (h : PromptOptimizer.Heap),
    0 <= a -> 0 <= b ->
    PromptOptimizer.optimize product (a + b) h
    = match PromptOptimizer.optimize product a h with
      | (Ok _, h1) => PromptOptimizer.optimize product b h1
      | (Raise e, h1) => (Raise e, h1)
      | (Beyond, h1) => (Beyond, h1)
      end.
Proof.
  intros product a b h Ha Hb. unfold PromptOptimizer.optimize.
  rewrite Z2Nat.inj_add by assumption.
  unfold bind at 1. rewrite for_range_add. unfold bind.
  destruct (PromptOptimizer.for_range (Z.to_nat a) _ h) as [[[]|e|] h1];
    reflexivity.
Qed.

Lemma optimize_split_witness :
  (0 <= 1 /\ 0 <= 1)
  /\ PromptOptimizer.optimize "wireless earbuds" (1 + 1) once_heap
     = match PromptOptimizer.optimize "wireless earbuds" 1 once_heap with
       | (Ok _, h1) => PromptOptimizer.optimize "wireless earbuds" 1 h1
       | (Raise e, h1) => (Raise e, h1)
       | (Beyond, h1) => (Beyond, h1)
       end.
Proof.
  split; [lia|].
  apply (optimize_split "wireless earbuds" 1 1 once_heap); lia.
Defined.

(** ** A generation that yields nothing *)

Lemma all_space_app s c :
  all_space (s ++ String c EmptyString) = all_space s && isspace c.
Proof.
  induction s as [|c0 s IH]; cbn [all_space append].
  - now rewrite andb_true_r.
  - rewrite IH. now rewrite andb_assoc.
Qed.

Lemma strip_all_space s : all_space s = true -> strip s = EmptyString.
Proof.
  intros H. unfold strip.
  replace (lstrip isspace s) with EmptyString; [reflexivity|].
  induction s as [|c s IH]; [reflexivity|].
  cbn [all_space] in H. apply andb_true_iff in H as [Hc Hs].
  cbn [lstrip]. rewrite Hc. now apply IH.
Qed.

Lemma splitlines_from_all_space :
  forall (k : nat) (s cur : string),
    (String.length s <= k)%nat ->
    all_space cur = true -> all_space s = true ->
    Forall (fun line => all_space line = true) (splitlines_from cur s).
Proof.
  induction k as [|k IH]; intros s cur Hlen Hcur Hs.
  - destruct s; [|simpl in Hlen; lia]. simpl.
    destruct (truthy cur); repeat constructor; exact Hcur.
  - destruct s as [|c rest]; cbn [splitlines_from].
    + destruct (truthy cur); repeat constructor; exact Hcur.
    + simpl in Hlen. cbn [all_space] in Hs.
      apply andb_true_iff in Hs as [Hc Hrest].
      destruct (Ascii.eqb c CR).
      * destruct rest as [|c' rest'].
        { constructor; [exact Hcur|]. apply IH; [simpl; lia|reflexivity|reflexivity]. }
        cbn [all_space] in Hrest.
        pose proof Hrest as Hrest0.
        apply andb_true_iff in Hrest as [Hc' Hrest'].
        destruct (Ascii.eqb c' LF); (constructor; [exact Hcur|]).
        -- apply IH; [simpl in Hlen; lia|reflexivity|exact Hrest'].
        -- apply IH; [lia|reflexivity|exact Hrest0].
      * destruct (is_linebreak c).
        { constructor; [exact Hcur|]. apply IH; [lia|reflexivity|exact Hrest]. }
        apply IH; [lia| |exact Hrest].
        rewrite all_space_app, Hcur, Hc. reflexivity.
Qed.

Lemma stripped_lines_all_space lines :
  Forall (fun line => all_space line = true) lines ->
  CopyWriterAgent.stripped_lines lines = [].
Proof.
  induction 1 as [|line lines Hline _ IH]; [reflexivity|].
  cbn [CopyWriterAgent.stripped_lines].
  now rewrite (strip_all_space _ Hline).
Qed.

(** X15: when the generation service answers with whitespace only, the empty
    answer included, no candidate is left, and [optimize] with at least
    one round raises the error of [max] on an empty sequence: one
    generation call has been made, an empty list has been scored, and no
    refinement call follows. *)
Theorem optimize_blank_generation :
  forall (product : string) (rounds : Z) (self : PromptOptimizer.t)
         (w : World) (prompt text : string),
    0 < rounds ->
    format (PromptOptimizer.template self) product 2 = Ok prompt ->
    CopyWriterAgent.client (PromptOptimizer.copy_agent self) (trace w)
      (CopyWriterAgent.model (PromptOptimizer.copy_agent self)) prompt
    = Reply text ->
    all_space text = true ->
    PromptOptimizer.optimize product rounds (self, w)
    = (Raise (ValueError MaxEmpty),
       (self,
        mkWorld
          (trace w
           ++ [GenCall 2
                 (CopyWriterAgent.model (PromptOptimizer.copy_agent self))
                 prompt;
               Scored []])
          (rand_words w) (rand_pos w))).
Proof.
  intros product rounds self w prompt text Hpos Hfmt Hreply Hblank.
  apply (optimize_fail product rounds 0 (self, w) (self, w));
    [simpl; lia|reflexivity|].
  rewrite round_unfold.
  rewrite (generate_copies_reply (PromptOptimizer.copy_agent self) product
             (PromptOptimizer.template self) prompt text
             CopyWriterAgent.default_n w Hfmt Hreply).
  rewrite (stripped_lines_all_space (splitlines text)
             (splitlines_from_all_space _ text EmptyString (le_n _)
                eq_refl Hblank)).
  change (slice_to [] CopyWriterAgent.default_n) with (@nil string).
  unfold ABTesterAgent.run, bind, emit, logged.
  cbn [ABTesterAgent.run_from ret trace rand_words rand_pos].
  unfold FeedbackAgent.improve_prompt, bind, lift_result.
  cbn [dict_keys map py_max trace].
  rewrite <- app_assoc. reflexivity.
Qed.

Lemma optimize_blank_generation_witness :
  (0 < 2
   /\ format main_template "wireless earbuds" 2 = Ok earbuds_prompt
   /\ (fun _ _ _ => Reply (" " ++ String LF "  "))
        (trace fresh_world) default_model earbuds_prompt
      = Reply (" " ++ String LF "  ")
   /\ all_space (" " ++ String LF "  ") = true)
  /\ PromptOptimizer.optimize "wireless earbuds" 2
       (optimizer_with (fun _ _ _ => Reply (" " ++ String LF "  "))
          stub_refinement main_template, fresh_world)
     = (Raise (ValueError MaxEmpty),
        (optimizer_with (fun _ _ _ => Reply (" " ++ String LF "  "))
           stub_refinement main_template,
         mkWorld
           (trace fresh_world
            ++ [GenCall 2 default_model earbuds_prompt; Scored []])
           (rand_words fresh_world) (rand_pos fresh_world))).
Proof.
  split; [split; [lia|split; [reflexivity|split; reflexivity]]|].
  apply (optimize_blank_generation "wireless earbuds" 2
           (optimizer_with (fun _ _ _ => Reply (" " ++ String LF "  "))
              stub_refinement main_template)
           fresh_world earbuds_prompt (" " ++ String LF "  "));
    [lia|reflexivity|reflexivity|reflexivity].
Defined.

(** ** What [optimize] can raise *)







(** ** The entry point *)

(** X17: when [main] completes, it has sent exactly two generation requests
    and two refinement requests, all to the model gpt-4.1-mini, the first
    being the template of [main] filled in for two copies of the wireless
    earbuds; what it prints is the heading, a line break, a space, the
    final template without whitespace at its ends, and a line break. *)
Theorem main_completed :
  forall (client : Client) (w w' : World) (out : string),
    main client w = (Ok out, w') ->
    exists final copies1 input1 prompt2 copies2 input2,
      out = ("Final optimized prompt:" ++ String LF " " ++ final
             ++ String LF EmptyString)%string
      /\ strip final = final
      /\ trace w'
         = trace w
           ++ [GenCall 2 "gpt-4.1-mini" earbuds_prompt;
               Scored copies1;
               RefineCall "gpt-4.1-mini" input1;
               GenCall 2 "gpt-4.1-mini" prompt2;
               Scored copies2;
               RefineCall "gpt-4.1-mini" input2].
Proof.
  intros client w w' out. unfold main.
  destruct (PromptOptimizer.optimize _ _ _) as [[final|e|] [self' w1]] eqn:Hopt;
    try discriminate.
  intros [= <- <-].
  unfold PromptOptimizer.optimize in Hopt.
  change (Z.to_nat 2) with 2%nat in Hopt.
  cbn [PromptOptimizer.for_range] in Hopt. unfold bind in Hopt.
  destruct (PromptOptimizer.round "wireless earbuds" _)
    as [[[]|e|] h1] eqn:Hround1; try discriminate.
  destruct (round_ok _ _ _ _ Hround1)
    as (prompt1 & copies1 & input1 & new1 & n1 & Hfmt1 & _ & ->).
  destruct (PromptOptimizer.round "wireless earbuds" _)
    as [[[]|e|] h2] eqn:Hround2; try discriminate.
  destruct (round_ok _ _ _ _ Hround2)
    as (prompt2 & copies2 & input2 & new2 & n2 & _ & Hstrip & ->).
  cbn in Hopt. injection Hopt as <- _ <-.
  cbn in Hfmt1. injection Hfmt1 as <-.
  exists new2, copies1, input1, prompt2, copies2, input2.
  repeat split; [exact Hstrip|].
  cbn [trace PromptOptimizer.copy_agent PromptOptimizer.fb_agent
         CopyWriterAgent.model FeedbackAgent.model].
  rewrite <- app_assoc. reflexivity.
Qed.

Lemma main_completed_witness :
  main stub_refinement fresh_world
  = (Ok ("Final optimized prompt:" ++ String LF " "
         ++ "New Template {product} {n}" ++ String LF EmptyString)%string,
     mkWorld
       [GenCall 2 default_model earbuds_prompt;
        Scored ["New Template {product} {n}"];
        RefineCall default_model
          (FeedbackAgent.feedback_prompt "New Template {product} {n}"
             main_template);
        GenCall 2 default_model "New Template wireless earbuds 2";
        Scored ["New Template {product} {n}"];
        RefineCall default_model
          (FeedbackAgent.feedback_prompt "New Template {product} {n}"
             new_template)]
       zero_words 4)
  /\ exists final copies1 input1 prompt2 copies2 input2,
       ("Final optimized prompt:" ++ String LF " "
        ++ "New Template {product} {n}" ++ String LF EmptyString)%string
       = ("Final optimized prompt:" ++ String LF " " ++ final
          ++ String LF EmptyString)%string
       /\ strip final = final
       /\ [GenCall 2 default_model earbuds_prompt;
           Scored ["New Template {product} {n}"];
           RefineCall default_model
             (FeedbackAgent.feedback_prompt "New Template {product} {n}"
                main_template);
           GenCall 2 default_model "New Template wireless earbuds 2";
           Scored ["New Template {product} {n}"];
           RefineCall default_model
             (FeedbackAgent.feedback_prompt "New Template {product} {n}"
                new_template)]
          = trace fresh_world
            ++ [GenCall 2 "gpt-4.1-mini" earbuds_prompt;
                Scored copies1;
                RefineCall "gpt-4.1-mini" input1;
                GenCall 2 "gpt-4.1-mini" prompt2;
                Scored copies2;
                RefineCall "gpt-4.1-mini" input2].
Proof.
  split; [reflexivity|].
  apply (main_completed stub_refinement fresh_world
           (mkWorld
              [GenCall 2 default_model earbuds_prompt;
               Scored ["New Template {product} {n}"];
               RefineCall default_model
                 (FeedbackAgent.feedback_prompt "New Template {product} {n}"
                    main_template);
               GenCall 2 default_model "New Template wireless earbuds 2";
               Scored ["New Template {product} {n}"];
               RefineCall default_model
                 (FeedbackAgent.feedback_prompt "New Template {product} {n}"
                    new_template)]
              zero_words 4)).
  reflexivity.
Defined.
